(** * PDF-TO-EXCEL: the conversion routine of [pdf_to_excel.py]

    A shallow embedding of [PDFToExcelConverter.extract_table_from_page] and
    [PDFToExcelConverter.convert_pdf_to_excel], and the properties of the
    specification that concern them.

    The routine is a sequential pipeline: it threads a world (file system,
    log, console) and may raise.  It is embedded in a state-and-exception
    monad.  What the routine obtains from its collaborators is handled in
    two ways:

    - the operating system, the PDF reader, the spreadsheet writer and the
      number parser are an interface, [Platform] ([os_path_exists],
      [pdfplumber_open], [os_makedirs], [df_to_excel], [parse_num]), over
      an abstract file system;
    - the two pandas operations the specification describes, the
      [DataFrame] constructor and [to_numeric] with [errors="ignore"], and
      the string functions [os.path.dirname] and [os.path.basename], are
      written out after their documented behaviour.

    Exceptions are the subclasses of Python's [Exception], the ones the
    handlers of the source select on.  The [with] block of line 45 closes
    the document on every exit; closing is not modelled. *)

From Stdlib Require Import String Ascii DecimalString.
From Stdlib Require Import List Bool Arith Lia.
Import ListNotations.
Local Open Scope list_scope.

(* ===================================================================== *)
(** ** Data model *)

(** A cell of an extracted table: text, or [None] for an empty cell. *)
Definition Cell : Type := option string.
Definition Row : Type := list Cell.
Definition Table : Type := list Row.

(** Exceptions.  Every class below derives from Python's [Exception]; the
    handlers of the source ([except Exception], [except ValueError]) are
    selections on the class. *)
Inductive exn_class : Type :=
| FileNotFoundError | ValueError | TypeError | KeyError | OtherException.

Inductive exn : Type := Exn (cls : exn_class) (msg : string).

Definition exn_cls (e : exn) : exn_class := let 'Exn c _ := e in c.
(** [str(e)], as the f-strings of the log messages use it. *)
Definition exn_str (e : exn) : string := let 'Exn _ m := e in m.

Definition is_Exception (_ : exn) : bool := true.
Definition is_ValueError (e : exn) : bool :=
  match exn_cls e with ValueError => true | _ => false end.

Inductive level : Type := INFO | WARNING | ERROR.
Definition LogRecord : Type := (level * string)%type.

(** What the program prints: the per-file line, the per-page progress
    ([page_number] of [total_pages]; the percentage is derived from the
    two) and the closing newline. *)
Inductive console_event : Type :=
| Processing (name : string) (total_pages : nat)
| Progress (page_number total_pages : nat)
| Newline.

(** The outcome of [page.extract_table()]: it raises, or it returns [None]
    or a list of rows. *)
Inductive extraction : Type :=
| Raises (e : exn)
| Returns (t : option Table).

Record Page : Type := mkPage { page_extract_table : extraction }.

(* ===================================================================== *)
(** ** Path functions ([posixpath]) *)

Definition is_sep (c : ascii) : bool := Ascii.eqb c "/"%char.

Fixpoint contains_sep (p : string) : bool :=
  match p with
  | EmptyString => false
  | String c r => is_sep c || contains_sep r
  end.

(** [p[:i]] for [i = p.rfind('/') + 1]. *)
Fixpoint head_part (p : string) : string :=
  match p with
  | EmptyString => EmptyString
  | String c r =>
      if contains_sep r then String c (head_part r)
      else if is_sep c then String c EmptyString
      else EmptyString
  end.

(** [p[i:]] for the same [i]. *)
Fixpoint tail_part (p : string) : string :=
  match p with
  | EmptyString => EmptyString
  | String c r =>
      if contains_sep r then tail_part r
      else if is_sep c then r
      else String c r
  end.

Fixpoint all_sep (p : string) : bool :=
  match p with
  | EmptyString => true
  | String c r => is_sep c && all_sep r
  end.

Fixpoint rstrip_sep (p : string) : string :=
  match p with
  | EmptyString => EmptyString
  | String c r =>
      match rstrip_sep r with
      | EmptyString => if is_sep c then EmptyString else String c EmptyString
      | r' => String c r'
      end
  end.

Definition is_empty (p : string) : bool :=
  match p with EmptyString => true | _ => false end.

(** [os.path.dirname]: the head, without its trailing separators unless it
    consists of separators only. *)
Definition dirname (p : string) : string :=
  let head := head_part p in
  if negb (is_empty head) && negb (all_sep head) then rstrip_sep head
  else head.

Definition basename (p : string) : string := tail_part p.

(** The output path is a bare file name: it has no directory component. *)
Definition bare_filename (p : string) : Prop := contains_sep p = false.

(* ===================================================================== *)
(** ** Stitching page fragments (lines 49-57)

    [truthy] is Python's truth value of an [Optional[list]]: [None] and the
    empty list are false. *)

Definition truthy (table : option Table) : bool :=
  match table with
  | Some (_ :: _) => true
  | _ => false
  end.

Definition is_nil {A} (l : list A) : bool :=
  match l with [] => true | _ => false end.

(** The body of the page loop on the accumulated table:
    [if table: if not all_tables: all_tables = table
               else: all_tables.extend(table[1:])]. *)
Definition stitch (all_tables : Table) (table : option Table) : Table :=
  match table with
  | Some t =>
      if truthy table then
        if is_nil all_tables then t else all_tables ++ tl t
      else all_tables
  | None => all_tables
  end.

(** The fragment [extract_table_from_page] hands to the loop (line 31 and
    the handler of lines 32-34), without the logging. *)
Definition fragment_of (page : Page) : option Table :=
  match page_extract_table page with
  | Raises _ => None
  | Returns table =>
      match table with
      | Some t => if truthy table && (0 <? length t) then Some t else None
      | None => None
      end
  end.

(** The specification's wording of the accumulated table: the fragments
    that are present, the first verbatim and each later one without its
    first row. *)
Fixpoint present (fragments : list (option Table)) : list Table :=
  match fragments with
  | [] => []
  | f :: rest =>
      match f with
      | Some t => if truthy f then t :: present rest else present rest
      | None => present rest
      end
  end.

Definition stitched (fragments : list (option Table)) : Table :=
  match present fragments with
  | [] => []
  | first :: later => first ++ concat (map (@tl Row) later)
  end.

(* ===================================================================== *)
(** ** The tabular structure (pandas) *)

(** A column label: a header cell, or a position of the default
    [RangeIndex]. *)
Inductive label : Type :=
| Named (c : Cell)
| Ordinal (n : nat).

Definition cell_eqb (a b : Cell) : bool :=
  match a, b with
  | Some x, Some y => String.eqb x y
  | None, None => true
  | _, _ => false
  end.

Definition label_eqb (a b : label) : bool :=
  match a, b with
  | Named x, Named y => cell_eqb x y
  | Ordinal m, Ordinal n => Nat.eqb m n
  | _, _ => false
  end.

Definition decimal (n : nat) : string := NilZero.string_of_uint (Nat.to_uint n).

Definition label_str (l : label) : string :=
  match l with
  | Named (Some s) => s
  | Named None => "None"
  | Ordinal n => decimal n
  end.

(** How often a label occurs among the labels of a frame. *)
Definition count_label (labels : list label) (col : label) : nat :=
  length (filter (fun l => label_eqb l col) labels).

Section Pandas.

(** The numbers [pandas.to_numeric] produces, and the values it accepts as
    a number. *)
Variable num : Type.
Variable parse_num : Cell -> option num.

(** A column has one type: [object] (the cells as extracted) or numeric. *)
Inductive column : Type :=
| ObjectCol (cells : list Cell)
| NumericCol (values : list num).

Record DataFrame : Type := mkDataFrame {
  df_columns : list label;   (* df.columns *)
  df_index : nat;            (* len(df.index): the number of data rows *)
  df_data : list column      (* one entry per column, in column order *)
}.

(** [pd.DataFrame(data, columns=columns)] for a list of rows.  The width is
    that of the longest row, shorter rows are filled with [None]; a
    [columns] argument of another length raises [ValueError]; without
    [columns] the labels are [0 .. width-1]. *)
Definition row_width (data : Table) : nat := list_max (map (@length Cell) data).

Definition column_at (data : Table) (j : nat) : column :=
  ObjectCol (map (fun r => nth j r None) data).

Definition pd_DataFrame (data : Table) (columns : option Row)
  : exn + DataFrame :=
  match data, columns with
  | [], Some hdr =>
      inr (mkDataFrame (map Named hdr) 0 (map (fun _ => ObjectCol []) hdr))
  | _, None =>
      let w := row_width data in
      inr (mkDataFrame (map Ordinal (seq 0 w)) (length data)
             (map (column_at data) (seq 0 w)))
  | _, Some hdr =>
      let w := row_width data in
      if length hdr =? w then
        inr (mkDataFrame (map Named hdr) (length data)
               (map (column_at data) (seq 0 w)))
      else
        inl (Exn ValueError
               (decimal (length hdr) ++ " columns passed, passed data had "
                ++ decimal w ++ " columns")%string)
  end.

(** [df[col]]: a single column when the label occurs once, a sub-frame when
    it occurs several times, [KeyError] when it does not occur. *)
Inductive selection : Type :=
| OneColumn (s : column)
| SubFrame (cs : list column).

Definition labelled (df : DataFrame) (col : label) : list column :=
  map snd
    (filter (fun lc => label_eqb (fst lc) col)
       (combine (df_columns df) (df_data df))).

Definition df_getitem (df : DataFrame) (col : label) : exn + selection :=
  match labelled df col with
  | [] => inl (Exn KeyError (label_str col))
  | [s] => inr (OneColumn s)
  | cs => inr (SubFrame cs)
  end.

(** [df[col] = s]. *)
Definition df_setitem (df : DataFrame) (col : label) (s : column)
  : DataFrame :=
  mkDataFrame (df_columns df) (df_index df)
    (map (fun lc => if label_eqb (fst lc) col then s else snd lc)
       (combine (df_columns df) (df_data df))).

Fixpoint parse_all (cells : list Cell) : option (list num) :=
  match cells with
  | [] => Some []
  | c :: rest =>
      match parse_num c, parse_all rest with
      | Some x, Some xs => Some (x :: xs)
      | _, _ => None
      end
  end.

(** [pd.to_numeric(arg, errors="ignore")], as documented for the versions
    that accept the value: "If 'ignore', then invalid parsing will return
    the input".  On a column: numeric when every cell parses, the column
    itself otherwise.  An argument of more than one dimension raises
    [TypeError]. *)
Definition to_numeric_series (s : column) : column :=
  match s with
  | NumericCol values => NumericCol values
  | ObjectCol cells =>
      match parse_all cells with
      | Some values => NumericCol values
      | None => ObjectCol cells
      end
  end.

Definition to_numeric_ignore (arg : selection) : exn + column :=
  match arg with
  | SubFrame _ =>
      inl (Exn TypeError "arg must be a list, tuple, 1-d array, or Series")
  | OneColumn s => inr (to_numeric_series s)
  end.

End Pandas.

Arguments ObjectCol {num} cells.
Arguments NumericCol {num} values.
Arguments mkDataFrame {num} df_columns df_index df_data.
Arguments df_columns {num} d.
Arguments df_index {num} d.
Arguments df_data {num} d.
Arguments column_at {num} data j.
Arguments pd_DataFrame {num} data columns.
Arguments OneColumn {num} s.
Arguments SubFrame {num} cs.
Arguments labelled {num} df col.
Arguments df_getitem {num} df col.
Arguments df_setitem {num} df col s.
Arguments parse_all {num} parse_num cells.
Arguments to_numeric_series {num} parse_num s.
Arguments to_numeric_ignore {num} parse_num arg.

(* ===================================================================== *)
(** ** The collaborators *)

(** What the routine calls and this repository does not define. *)
Class Platform : Type := {
  (** the numbers of [pandas.to_numeric], and what it accepts as one *)
  num : Type;
  parse_num : Cell -> option num;
  (** the file system *)
  FS : Type;
  (** [os.path.exists] *)
  os_path_exists : string -> FS -> bool;
  (** [pdfplumber.open(path).pages], or the error of opening or parsing *)
  pdfplumber_open : string -> FS -> exn + list Page;
  (** [os.makedirs(name, exist_ok=True)] *)
  os_makedirs : string -> FS -> exn + FS;
  (** [df.to_excel(path, index=False)] *)
  df_to_excel : DataFrame num -> string -> FS -> exn + FS
}.

(* ===================================================================== *)
(** ** The world and the monad *)

Section Converter.

Context {P : Platform}.

(** [w_log] holds the records handed to the logger, in order.  The
    handlers of lines 18-21 append each of them to the file
    [pdf_conversion.log] (and to the console): [w_log] is what that file
    holds.  [w_fs] is the rest of the file system, the part
    [os.path.exists], [pdfplumber.open], [os.makedirs] and [to_excel] act
    on. *)
Record World : Type := mkWorld {
  w_fs : FS;
  w_log : list LogRecord;
  w_console : list console_event
}.

Definition M (A : Type) : Type := World -> (exn + A) * World.

Definition ret {A} (a : A) : M A := fun w => (inr a, w).
Definition raise {A} (e : exn) : M A := fun w => (inl e, w).
Definition bind {A B} (m : M A) (k : A -> M B) : M B :=
  fun w =>
    match m w with
    | (inr a, w') => k a w'
    | (inl e, w') => (inl e, w')
    end.

(** [try: m  except <class> as e: handler e]. *)
Definition try_except {A} (m : M A) (catches : exn -> bool)
    (handler : exn -> M A) : M A :=
  fun w =>
    match m w with
    | (inl e, w') => if catches e then handler e w' else (inl e, w')
    | (inr a, w') => (inr a, w')
    end.

Definition lift {A} (r : exn + A) : M A := fun w => (r, w).

Definition logger (lvl : level) (msg : string) : M unit :=
  fun w => (inr tt, mkWorld (w_fs w) (w_log w ++ [(lvl, msg)]) (w_console w)).

Definition print (ev : console_event) : M unit :=
  fun w => (inr tt, mkWorld (w_fs w) (w_log w) (w_console w ++ [ev])).

Definition read_fs {A} (f : FS -> A) : M A := fun w => (inr (f (w_fs w)), w).

Definition call_fs {A} (f : FS -> exn + A) : M A := fun w => (f (w_fs w), w).

(** A step on the files returns the files it leaves, or raises.  A step
    that raises is taken to leave the files as they were: what an
    interrupted [os.makedirs] or [to_excel] leaves behind (some parent
    directories, a partial output file) is not modelled. *)
Definition update_fs (f : FS -> exn + FS) : M unit :=
  fun w =>
    match f (w_fs w) with
    | inr fs' => (inr tt, mkWorld fs' (w_log w) (w_console w))
    | inl e => (inl e, w)
    end.

Notation "x <- m ;; k" := (bind m (fun x => k))
  (at level 61, m at next level, right associativity).
Notation "m ;;; k" := (bind m (fun _ => k))
  (at level 61, right associativity).

(* ===================================================================== *)
(** ** [extract_table_from_page] (lines 25-34) *)

Definition call_extract_table (page : Page) : M (option Table) :=
  match page_extract_table page with
  | Raises e => raise e
  | Returns table => ret table
  end.

Definition extract_table_from_page (page : Page) : M (option Table) :=
  try_except
    (table <- call_extract_table page ;;
     ret (match table with
          | Some t => if truthy table && (0 <? length t) then table else None
          | None => None
          end))
    is_Exception
    (fun e =>
       logger WARNING ("Could not extract table from page: " ++ exn_str e) ;;;
       ret None).

(* ===================================================================== *)
(** ** [convert_pdf_to_excel] (lines 36-93) *)

(** [for page_number, page in enumerate(pdf.pages, start=1)]. *)
Definition enumerate_from_1 (pages : list Page) : list (nat * Page) :=
  combine (seq 1 (length pages)) pages.

Fixpoint for_pages (total_pages : nat) (numbered : list (nat * Page))
    (all_tables : Table) : M Table :=
  match numbered with
  | [] => ret all_tables
  | (page_number, page) :: rest =>
      table <- extract_table_from_page page ;;
      print (Progress page_number total_pages) ;;;
      for_pages total_pages rest (stitch all_tables table)
  end.

(** Lines 45-66: open the document and stitch its pages. *)
Definition read_tables (pdf_path : string) : M Table :=
  pages <- call_fs (pdfplumber_open pdf_path) ;;
  let total_pages := length pages in
  print (Processing (basename pdf_path) total_pages) ;;;
  all_tables <- for_pages total_pages (enumerate_from_1 pages) [] ;;
  print Newline ;;;
  ret all_tables.

(** Line 68: [not all_tables or len(all_tables) <= 1]. *)
Definition no_valid_table (all_tables : Table) : bool :=
  is_nil all_tables || (length all_tables <=? 1).

(** Lines 73-76: the first row is the [columns] argument only when it has
    more than one cell; the rows after it are the data. *)
Definition header_argument (all_tables : Table) : option Row :=
  let first := hd [] all_tables in
  if 1 <? length first then Some first else None.

Definition build_frame (all_tables : Table) : exn + DataFrame num :=
  pd_DataFrame (tl all_tables) (header_argument all_tables).

(** Lines 79-83: the loop over the labels, with its [ValueError] handler. *)
Definition coerce_column (df : DataFrame num) (col : label)
  : M (DataFrame num) :=
  try_except
    (arg <- lift (df_getitem df col) ;;
     s <- lift (to_numeric_ignore parse_num arg) ;;
     ret (df_setitem df col s))
    is_ValueError
    (fun e =>
       logger WARNING
         ("Column '" ++ label_str col ++ "' could not be converted: "
          ++ exn_str e) ;;;
       ret df).

Fixpoint coerce_columns (cols : list label) (df : DataFrame num)
  : M (DataFrame num) :=
  match cols with
  | [] => ret df
  | col :: rest =>
      df' <- coerce_column df col ;;
      coerce_columns rest df'
  end.

(** Lines 72-83: the frame and its column types. *)
Definition make_frame (all_tables : Table) : M (DataFrame num) :=
  df <- lift (build_frame all_tables) ;;
  coerce_columns (df_columns df) df.

(** Lines 85-89: the output directory, the file, the success record. *)
Definition save_frame (df : DataFrame num) (excel_path : string) : M bool :=
  update_fs (os_makedirs (dirname excel_path)) ;;;
  update_fs (df_to_excel df excel_path) ;;;
  logger INFO ("Successfully converted to: " ++ excel_path) ;;;
  ret true.

(** The body of the outer [try]. *)
Definition convert_body (pdf_path excel_path : string) : M bool :=
  found <- read_fs (os_path_exists pdf_path) ;;
  if negb found then
    logger ERROR ("PDF file not found: " ++ pdf_path) ;;;
    ret false
  else
    all_tables <- read_tables pdf_path ;;
    if no_valid_table all_tables then
      logger WARNING "No valid table data found in PDF" ;;;
      ret false
    else
      df <- make_frame all_tables ;;
      save_frame df excel_path.

Definition convert_pdf_to_excel (pdf_path excel_path : string) : M bool :=
  try_except (convert_body pdf_path excel_path)
    is_Exception
    (fun e =>
       logger ERROR ("Conversion failed: " ++ exn_str e) ;;;
       ret false).

(** The frame a call has at line 85, before it is saved ([None] when the
    call stops at line 70). *)
Definition tabular_content (pdf_path : string) : M (option (DataFrame num)) :=
  all_tables <- read_tables pdf_path ;;
  if no_valid_table all_tables then ret None
  else
    df <- make_frame all_tables ;;
    ret (Some df).

(* ===================================================================== *)
(** ** Observations used in the statements *)

Definition log_more (w : World) (records : list LogRecord) : World :=
  mkWorld (w_fs w) (w_log w ++ records) (w_console w).

(** The whole file system: the files of [w_fs] and the log file. *)
Definition filesystem (w : World) : FS * list LogRecord := (w_fs w, w_log w).

(** The warning of lines 32-34, when the page raises. *)
Definition extraction_warnings (page : Page) : list LogRecord :=
  match page_extract_table page with
  | Raises e =>
      [(WARNING, ("Could not extract table from page: " ++ exn_str e)%string)]
  | Returns _ => []
  end.

Definition progress_events (total_pages : nat) (numbered : list (nat * Page))
  : list console_event :=
  map (fun np => Progress (fst np) total_pages) numbered.

(** The world after the pages of a document have been read. *)
Definition read_world (pdf_path : string) (pages : list Page) (w : World)
  : World :=
  mkWorld (w_fs w)
    (w_log w ++ flat_map extraction_warnings pages)
    (w_console w
     ++ Processing (basename pdf_path) (length pages)
        :: progress_events (length pages) (enumerate_from_1 pages)
     ++ [Newline]).

Definition success_record (excel_path : string) : LogRecord :=
  (INFO, ("Successfully converted to: " ++ excel_path)%string).
Definition no_table_record : LogRecord :=
  (WARNING, "No valid table data found in PDF"%string).
Definition not_found_record (pdf_path : string) : LogRecord :=
  (ERROR, ("PDF file not found: " ++ pdf_path)%string).
Definition failure_record (e : exn) : LogRecord :=
  (ERROR, ("Conversion failed: " ++ exn_str e)%string).

(** The coercion loop without the monad. *)
Definition numeric_column (df : DataFrame num) (col : label)
  : exn + DataFrame num :=
  match df_getitem df col with
  | inl e => inl e
  | inr arg =>
      match to_numeric_ignore parse_num arg with
      | inl e => inl e
      | inr s => inr (df_setitem df col s)
      end
  end.

Fixpoint numeric_columns (cols : list label) (df : DataFrame num)
  : exn + DataFrame num :=
  match cols with
  | [] => inr df
  | col :: rest =>
      match numeric_column df col with
      | inl e => inl e
      | inr df' => numeric_columns rest df'
      end
  end.

(** The frame of lines 72-83 as a value. *)
Definition frame_of (all_tables : Table) : exn + DataFrame num :=
  match build_frame all_tables with
  | inl e => inl e
  | inr df => numeric_columns (df_columns df) df
  end.

(** The data of a frame after the loop has gone through [cols]. *)
Definition converted (cols : list label) (df : DataFrame num)
  : list (column num) :=
  map (fun lc =>
         if existsb (label_eqb (fst lc)) cols
         then to_numeric_series parse_num (snd lc)
         else snd lc)
    (combine (df_columns df) (df_data df)).

(** Every label of the frame occurs once. *)
Definition unique_labels (labels : list label) : bool :=
  forallb (fun col => count_label labels col =? 1) labels.

End Converter.

Arguments World {P}.
Arguments mkWorld {P} w_fs w_log w_console.

(* ===================================================================== *)
(** ** A small platform, to run the routine on *)

Module Demo.

(** Numbers are the naturals, written in decimal digits.  ([to_numeric]
    reads more strings as numbers: signs, decimals, exponents, blanks
    around a number.  The cells of the tables below are digits or letters
    only, where both agree.) *)
Definition parse_decimal (c : Cell) : option nat :=
  match c with
  | Some s => option_map Nat.of_uint (NilZero.uint_of_string s)
  | None => None
  end.

(** Documents by path, directories, and the sheets written so far. *)
Record files : Type := mkFiles {
  documents : list (string * list Page);
  directories : list string;
  sheets : list (string * DataFrame nat)
}.

Definition has_path {A} (path : string) (entries : list (string * A)) : bool :=
  existsb (fun e => String.eqb (fst e) path) entries.

Definition path_exists (path : string) (fs : files) : bool :=
  has_path path (documents fs)
  || existsb (String.eqb path) (directories fs)
  || has_path path (sheets fs).

Definition open_document (path : string) (fs : files) : exn + list Page :=
  match find (fun e => String.eqb (fst e) path) (documents fs) with
  | Some (_, pages) => inr pages
  | None => inl (Exn OtherException "No /Root object! - Is this really a PDF?")
  end.

Definition makedirs (name : string) (fs : files) : exn + files :=
  if is_empty name then
    inl (Exn FileNotFoundError "[Errno 2] No such file or directory: ''")
  else if has_path name (documents fs) || has_path name (sheets fs) then
    inl (Exn OtherException "[Errno 17] File exists")
  else if existsb (String.eqb name) (directories fs) then inr fs
  else inr (mkFiles (documents fs) (name :: directories fs) (sheets fs)).

Definition write_sheet (df : DataFrame nat) (path : string) (fs : files)
  : exn + files :=
  if existsb (String.eqb path) (directories fs) then
    inl (Exn OtherException "[Errno 21] Is a directory")
  else
    inr (mkFiles (documents fs) (directories fs)
           ((path, df)
            :: filter (fun e => negb (String.eqb (fst e) path)) (sheets fs))).

Definition platform : Platform := {|
  num := nat;
  parse_num := parse_decimal;
  FS := files;
  os_path_exists := path_exists;
  pdfplumber_open := open_document;
  os_makedirs := makedirs;
  df_to_excel := write_sheet
|}.

Definition text (s : string) : Cell := Some s.

Definition people : Table :=
  [ [text "id"; text "name"];
    [text "1"; text "ann"];
    [text "2"; text "bob"] ].

Definition readings : Table :=
  [ [text "k"; text "v"];
    [text "1"; text "4"];
    [text "x"; text "5"];
    [text "3"; text "6"] ].

Definition notes : Table := [ [text "note"]; [text "7"]; [text "8"] ].

Definition page_of (t : Table) : Page := mkPage (Returns (Some t)).
Definition blank_page : Page := mkPage (Returns None).
Definition broken_page : Page :=
  mkPage (Raises (Exn OtherException "unreadable page")).

Definition disk : files :=
  mkFiles
    [ ("in/people.pdf"%string, [page_of people; page_of people]);
      ("in/readings.pdf"%string, [page_of readings]);
      ("in/notes.pdf"%string, [page_of notes]);
      ("in/empty.pdf"%string, [blank_page; broken_page]) ]
    [] [].

Definition start : @World platform := mkWorld (P := platform) disk [] [].

End Demo.

(* ===================================================================== *)
(** ** Observations on the frame *)

(** The first row can serve the [DataFrame] constructor and the coercion
    loop: it is not used as header, or it is as wide as the widest data
    row (or there is no data row) and none of its cells occurs twice. *)
Definition frame_ok (all_tables : Table) : bool :=
  match header_argument all_tables with
  | None => true
  | Some hdr =>
      (is_nil (tl all_tables) || (length hdr =? row_width (tl all_tables)))
      && unique_labels (map Named hdr)
  end.

(** The number of entries of a column. *)
Definition column_size {num : Type} (c : column num) : nat :=
  match c with
  | ObjectCol cells => length cells
  | NumericCol values => length values
  end.

Section Typing.

Context {P : Platform}.

Definition is_number (c : Cell) : bool :=
  match parse_num c with Some _ => true | None => false end.

Definition numbers (cells : list Cell) : list num :=
  flat_map (fun c => match parse_num c with Some x => [x] | None => [] end)
    cells.

(** A column of cells as the call writes it: numbers when every cell is a
    number, the cells themselves otherwise. *)
Definition typed_column (cells : list Cell) : column num :=
  if forallb is_number cells then NumericCol (numbers cells)
  else ObjectCol cells.

End Typing.

(* ===================================================================== *)
(** ** More path functions ([posixpath], [str])

    Paths and file names are byte strings.  [str.lower] is written for the
    ASCII letters, the only ones the suffix [.pdf] can come from. *)

Definition starts_with_sep (p : string) : bool :=
  match p with
  | EmptyString => false
  | String c _ => is_sep c
  end.

Fixpoint ends_with_sep (p : string) : bool :=
  match p with
  | EmptyString => false
  | String c EmptyString => is_sep c
  | String _ r => ends_with_sep r
  end.

(** [os.path.join(a, b)]. *)
Definition os_path_join (a b : string) : string :=
  if starts_with_sep b then b
  else if is_empty a || ends_with_sep a then (a ++ b)%string
  else (a ++ String "/"%char b)%string.

Definition is_dot (c : ascii) : bool := Ascii.eqb c "."%char.

Fixpoint contains_dot (p : string) : bool :=
  match p with
  | EmptyString => false
  | String c r => is_dot c || contains_dot r
  end.

Fixpoint all_dots (p : string) : bool :=
  match p with
  | EmptyString => true
  | String c r => is_dot c && all_dots r
  end.

(** [t[:d]] and [t[d:]] for [d = t.rfind('.')], on a [t] that has a dot. *)
Fixpoint before_last_dot (t : string) : string :=
  match t with
  | EmptyString => EmptyString
  | String c r => if contains_dot r then String c (before_last_dot r)
                  else EmptyString
  end.

Fixpoint from_last_dot (t : string) : string :=
  match t with
  | EmptyString => EmptyString
  | String c r => if contains_dot r then from_last_dot r
                  else if is_dot c then t
                  else EmptyString
  end.

(** [os.path.splitext]: the extension starts at the last dot of the last
    component, provided a character other than a dot comes before it in
    that component. *)
Definition os_path_splitext (p : string) : string * string :=
  let name := tail_part p in
  if contains_dot name && negb (all_dots (before_last_dot name)) then
    ((head_part p ++ before_last_dot name)%string, from_last_dot name)
  else (p, EmptyString).

Definition lower_char (c : ascii) : ascii :=
  let n := nat_of_ascii c in
  if (65 <=? n) && (n <=? 90) then ascii_of_nat (n + 32) else c.

(** [s.lower()]. *)
Fixpoint str_lower (s : string) : string :=
  match s with
  | EmptyString => EmptyString
  | String c r => String (lower_char c) (str_lower r)
  end.

(** [s.endswith(suffix)]. *)
Fixpoint str_endswith (s suffix : string) : bool :=
  String.eqb s suffix
  || match s with
     | EmptyString => false
     | String _ r => str_endswith r suffix
     end.

(** Line 144: [file_name.lower().endswith(".pdf")]. *)
Definition is_pdf_name (file_name : string) : bool :=
  str_endswith (str_lower file_name) ".pdf".

(** Lines 147-150: the output file of a document at [relative_path] under
    the input folder. *)
Definition excel_path_of (output_folder relative_path : string) : string :=
  os_path_join output_folder
    (fst (os_path_splitext relative_path) ++ ".xlsx")%string.

(* ===================================================================== *)
(** ** The desktop: folder selection and the directory walk *)

(** What [select_folder_and_output] and [run] call besides the
    collaborators of [Platform]. *)
Class Desktop {P : Platform} : Type := {
  (** [tk.Tk()] and [root.withdraw()] (lines 99-100) *)
  tk_Tk : exn + unit;
  (** [filedialog.askdirectory(title=...)]: the folder the operator
      chooses, the empty string when the dialog is cancelled *)
  askdirectory : string -> exn + string;
  (** [os.walk(top)]: the directories under [top], each with its files, in
      the order of the walk.  The walk lists a directory when it reaches
      it; what a run writes meanwhile are directories and files named
      [.xlsx], which line 144 skips, so the documents found are those of
      the walk taken when the loop starts. *)
  os_walk : string -> FS -> list (string * list string);
  (** [os.path.relpath(path, start)] *)
  os_path_relpath : string -> string -> string
}.

(** What [run] prints itself (lines 133, 152-160). *)
Inductive status_line : Type :=
| NoValidFolders
| Converting (file_name : string)
| Converted (file_name : string)
| FailedToConvert (file_name : string)
| AllProcessed (output_folder : string).

Section Runner.

Context {P : Platform} {D : Desktop}.

(** A session of the program: the world of the conversions, the titles of
    the dialogs shown so far, and the lines [run] has printed.  (The lines
    a conversion prints in between are in [w_console].) *)
Record Session : Type := mkSession {
  s_world : World;
  s_dialogs : list string;
  s_status : list status_line
}.

Definition R (A : Type) : Type := Session -> (exn + A) * Session.

Definition r_ret {A} (a : A) : R A := fun s => (inr a, s).
Definition r_bind {A B} (m : R A) (k : A -> R B) : R B :=
  fun s =>
    match m s with
    | (inr a, s') => k a s'
    | (inl e, s') => (inl e, s')
    end.
Definition r_try {A} (m : R A) (catches : exn -> bool) (handler : exn -> R A)
  : R A :=
  fun s =>
    match m s with
    | (inl e, s') => if catches e then handler e s' else (inl e, s')
    | (inr a, s') => (inr a, s')
    end.
Definition r_lift {A} (r : exn + A) : R A := fun s => (r, s).

(** A step of the converter, inside the session. *)
Definition in_world {A} (m : M A) : R A :=
  fun s =>
    let (r, w') := m (s_world s) in
    (r, mkSession w' (s_dialogs s) (s_status s)).

Definition say (line : status_line) : R unit :=
  fun s => (inr tt, mkSession (s_world s) (s_dialogs s) (s_status s ++ [line])).

Definition ask_directory (title : string) : R string :=
  fun s =>
    (askdirectory title,
     mkSession (s_world s) (s_dialogs s ++ [title]) (s_status s)).

Notation "x <~ m ;; k" := (r_bind m (fun x => k))
  (at level 61, m at next level, right associativity).
Notation "m ;;~ k" := (r_bind m (fun _ => k))
  (at level 61, right associativity).

Definition input_title : string := "Select Input Folder Containing PDFs".
Definition output_title : string := "Select Output Parent Folder".

(** [select_folder_and_output] (lines 95-123). *)
Definition select_folder_and_output : R (option string * option string) :=
  r_lift tk_Tk ;;~
  r_try
    (input_folder <~ ask_directory input_title ;;
     if is_empty input_folder then
       in_world (logger INFO "No input folder selected. Exiting.") ;;~
       r_ret (None, None)
     else
       output_parent_folder <~ ask_directory output_title ;;
       if is_empty output_parent_folder then
         in_world (logger INFO "No output folder selected. Exiting.") ;;~
         r_ret (None, None)
       else r_ret (Some input_folder, Some output_parent_folder))
    is_Exception
    (fun e =>
       in_world (logger ERROR ("Selection error: " ++ exn_str e)) ;;~
       r_ret (None, None)).

(** Python's truth value of an [Optional[str]]. *)
Definition chosen (folder : option string) : bool :=
  match folder with
  | Some f => negb (is_empty f)
  | None => false
  end.

(** Lines 144-158: one file of the walk. *)
Definition convert_file (input_folder output_folder root_dir file_name : string)
  : R unit :=
  if is_pdf_name file_name then
    let pdf_path := os_path_join root_dir file_name in
    let relative_path := os_path_relpath pdf_path input_folder in
    let excel_path := excel_path_of output_folder relative_path in
    say (Converting file_name) ;;~
    success <~ in_world (convert_pdf_to_excel pdf_path excel_path) ;;
    if success then say (Converted file_name)
    else say (FailedToConvert file_name)
  else r_ret tt.

Fixpoint for_files (input_folder output_folder root_dir : string)
    (files : list string) : R unit :=
  match files with
  | [] => r_ret tt
  | file_name :: rest =>
      convert_file input_folder output_folder root_dir file_name ;;~
      for_files input_folder output_folder root_dir rest
  end.

Fixpoint for_walk (input_folder output_folder : string)
    (walk : list (string * list string)) : R unit :=
  match walk with
  | [] => r_ret tt
  | (root_dir, files) :: rest =>
      for_files input_folder output_folder root_dir files ;;~
      for_walk input_folder output_folder rest
  end.

(** [run] (lines 125-160). *)
Definition run : R unit :=
  selection <~ select_folder_and_output ;;
  let (input_folder, output_parent_folder) := selection in
  if negb (chosen input_folder) || negb (chosen output_parent_folder) then
    in_world (logger INFO "Conversion cancelled or invalid selection.") ;;~
    say NoValidFolders
  else
    let input_folder := match input_folder with Some f => f | None => EmptyString end in
    let output_parent_folder :=
      match output_parent_folder with Some f => f | None => EmptyString end in
    let output_folder :=
      os_path_join output_parent_folder (basename input_folder) in
    in_world (update_fs (os_makedirs output_folder)) ;;~
    walk <~ in_world (read_fs (os_walk input_folder)) ;;
    for_walk input_folder output_folder walk ;;~
    say (AllProcessed output_folder).

(** [main] (lines 163-168): a converter is made and run. *)
Definition main : R unit := run.

(* ===================================================================== *)
(** ** Observations on a run *)






(** A session after some dialogs were shown and some records logged. *)
Definition session_after (s : Session) (titles : list string)
    (records : list LogRecord) : Session :=
  mkSession (log_more (s_world s) records) (s_dialogs s ++ titles)
    (s_status s).

(** The record [select_folder_and_output] logs when it returns no folder
    (lines 108, 116 and 122): the first dialog raised, or was cancelled,
    or the second dialog raised, or was cancelled. *)
Definition cancel_record : LogRecord :=
  match askdirectory input_title with
  | inl e => (ERROR, ("Selection error: " ++ exn_str e)%string)
  | inr input_folder =>
      if is_empty input_folder then
        (INFO, "No input folder selected. Exiting."%string)
      else
        match askdirectory output_title with
        | inl e => (ERROR, ("Selection error: " ++ exn_str e)%string)
        | inr _ => (INFO, "No output folder selected. Exiting."%string)
        end
  end.


End Runner.

Arguments Session {P}.
Arguments mkSession {P} s_world s_dialogs s_status.

Module DemoDesktop.

Import Demo.

(** The files of a folder: the documents whose directory it is. *)
Definition walk_documents (top : string) (fs : files)
  : list (string * list string) :=
  [(top,
    map (fun e => basename (fst e))
      (filter (fun e => String.eqb (dirname (fst e)) top) (documents fs)))].

(** A path relative to a folder it lies in. *)
Fixpoint strip_prefix (prefix p : string) : string :=
  match prefix, p with
  | EmptyString, String c r => if is_sep c then r else p
  | String a x, String b y => if Ascii.eqb a b then strip_prefix x y else p
  | _, _ => p
  end.

Definition relative_to (p start : string) : string :=
  match strip_prefix start p with
  | EmptyString => "."
  | r => r
  end.

Definition desktop (answer : string -> exn + string) : @Desktop platform :=
  @Build_Desktop platform (inr tt) answer walk_documents relative_to.


Definition cancels (title : string) : exn + string := inr EmptyString.


Definition begin : Session (P := platform) := mkSession start [] [].

(** Two documents the table stage refuses: a header with a cell that occurs
    twice, and a header wider than the rows. *)
Definition twice : Table := [ [text "a"; text "a"]; [text "1"; text "2"] ].
Definition wide : Table :=
  [ [text "a"; text "b"; text "c"]; [text "1"; text "2"] ].

Definition shelf : @World platform :=
  mkWorld (P := platform)
    (mkFiles
       [ ("in/twice.pdf"%string, [page_of twice]);
         ("in/wide.pdf"%string, [page_of wide]) ]
       [] [])
    [] [].

End DemoDesktop.

(* ===================================================================== *)
(** ** Stitching: the loop body against the specification's wording *)

Lemma fold_stitch_started (fragments : list (option Table)) :
  forall acc : Table,
    acc <> [] ->
    fold_left stitch fragments acc
    = acc ++ concat (map (@tl Row) (present fragments)).
Proof.
  induction fragments as [|f rest IH]; intros acc Hacc; simpl.
  - now rewrite app_nil_r.
  - destruct f as [[|r rs]|]; simpl.
    + now apply IH.
    + destruct acc as [|a acc']; [congruence|]. simpl.
      rewrite IH by discriminate. simpl.
      now rewrite <- app_assoc.
    + now apply IH.
Qed.

Lemma fold_stitch_stitched (fragments : list (option Table)) :
  fold_left stitch fragments [] = stitched fragments.
Proof.
  unfold stitched.
  induction fragments as [|f rest IH]; simpl; [reflexivity|].
  destruct f as [[|r rs]|]; simpl; try exact IH.
  now rewrite fold_stitch_started by discriminate.
Qed.

Lemma fragment_of_truthy (page : Page) :
  match fragment_of page with
  | Some t => truthy (Some t) = true /\ page_extract_table page = Returns (Some t)
  | None => True
  end.
Proof.
  unfold fragment_of.
  destruct (page_extract_table page) as [e|[[|r rs]|]]; simpl; auto.
Qed.


Section Properties.

Context {P : Platform}.

(* ===================================================================== *)
(** ** Running the monad *)

Ltac run :=
  unfold bind, ret, raise, try_except, lift, logger, print, read_fs, call_fs,
    update_fs; simpl.

Lemma world_eta (w : World) :
  mkWorld (w_fs w) (w_log w) (w_console w) = w.
Proof. now destruct w. Qed.

Lemma extract_table_from_page_run (page : Page) (w : World) :
  extract_table_from_page page w
  = (inr (fragment_of page), log_more w (extraction_warnings page)).
Proof.
  unfold extract_table_from_page, call_extract_table, fragment_of,
    extraction_warnings, log_more.
  destruct (page_extract_table page) as [e|[t|]]; run;
    rewrite ?app_nil_r, ?world_eta; reflexivity.
Qed.

Lemma for_pages_run (total_pages : nat) (numbered : list (nat * Page)) :
  forall (all_tables : Table) (w : World),
    for_pages total_pages numbered all_tables w
    = (inr (fold_left stitch (map fragment_of (map snd numbered)) all_tables),
       mkWorld (w_fs w)
         (w_log w ++ flat_map extraction_warnings (map snd numbered))
         (w_console w ++ progress_events total_pages numbered)).
Proof.
  induction numbered as [|[page_number page] rest IH]; intros all_tables w.
  - simpl. run. now rewrite !app_nil_r, world_eta.
  - simpl. unfold bind at 1. rewrite extract_table_from_page_run.
    unfold bind, print, log_more. simpl. rewrite IH. simpl.
    now rewrite <- !app_assoc.
Qed.

Lemma enumerate_pages (pages : list Page) :
  map snd (enumerate_from_1 pages) = pages.
Proof.
  unfold enumerate_from_1. generalize 1.
  induction pages as [|p rest IH]; intros n; simpl; [reflexivity|].
  now rewrite IH.
Qed.

Lemma read_tables_run (pdf_path : string) (w : World) :
  read_tables pdf_path w
  = match pdfplumber_open pdf_path (w_fs w) with
    | inl e => (inl e, w)
    | inr pages =>
        (inr (stitched (map fragment_of pages)), read_world pdf_path pages w)
    end.
Proof.
  unfold read_tables, read_world. unfold bind at 1. unfold call_fs.
  destruct (pdfplumber_open pdf_path (w_fs w)) as [e|pages]; [reflexivity|].
  unfold bind, print, ret. simpl. rewrite for_pages_run. simpl.
  rewrite enumerate_pages, fold_stitch_stitched.
  now rewrite <- !app_assoc.
Qed.

(* ===================================================================== *)
(** ** The coercion loop

    [to_numeric] with [errors="ignore"] raises no [ValueError], and
    [df[col]] raises [KeyError] only: the handler of line 82 is never
    entered, the loop leaves the world as it is, and it is the pure fold
    [numeric_columns]. *)

Lemma coerce_column_run (df : DataFrame num) (col : label) (w : World) :
  coerce_column df col w = (numeric_column df col, w).
Proof.
  unfold coerce_column, numeric_column, df_getitem. run.
  destruct (labelled df col) as [|s [|s' cs]]; reflexivity.
Qed.

Lemma coerce_columns_run (cols : list label) :
  forall (df : DataFrame num) (w : World),
    coerce_columns cols df w = (numeric_columns cols df, w).
Proof.
  induction cols as [|col rest IH]; intros df w; simpl; [reflexivity|].
  unfold bind. rewrite coerce_column_run.
  destruct (numeric_column df col) as [e|df']; [reflexivity|].
  apply IH.
Qed.

Lemma numeric_column_shape (df df' : DataFrame num) (col : label) :
  numeric_column df col = inr df' ->
  df_columns df' = df_columns df /\ df_index df' = df_index df.
Proof.
  unfold numeric_column.
  destruct (df_getitem df col) as [e|arg]; [discriminate|].
  destruct (to_numeric_ignore parse_num arg) as [e|s]; [discriminate|].
  intros [= <-]. split; reflexivity.
Qed.

Lemma numeric_columns_shape (cols : list label) :
  forall df df' : DataFrame num,
    numeric_columns cols df = inr df' ->
    df_columns df' = df_columns df /\ df_index df' = df_index df.
Proof.
  induction cols as [|col rest IH]; intros df df'; simpl.
  - intros [= <-]. split; reflexivity.
  - destruct (numeric_column df col) as [e|df1] eqn:E; [discriminate|].
    intros H. apply IH in H. apply numeric_column_shape in E.
    destruct H as [-> ->]. exact E.
Qed.

Lemma make_frame_run (all_tables : Table) (w : World) :
  make_frame all_tables w = (frame_of all_tables, w).
Proof.
  unfold make_frame, frame_of. unfold bind, lift.
  destruct (build_frame all_tables) as [e|df]; [reflexivity|].
  apply coerce_columns_run.
Qed.

(* ===================================================================== *)
(** ** The routine, step by step *)

Lemma save_frame_run (df : DataFrame num) (excel_path : string) (w : World) :
  save_frame df excel_path w
  = match os_makedirs (dirname excel_path) (w_fs w) with
    | inl e => (inl e, w)
    | inr fs1 =>
        match df_to_excel df excel_path fs1 with
        | inl e => (inl e, mkWorld fs1 (w_log w) (w_console w))
        | inr fs2 =>
            (inr true,
             mkWorld fs2 (w_log w ++ [success_record excel_path])
               (w_console w))
        end
    end.
Proof.
  unfold save_frame. run.
  destruct (os_makedirs (dirname excel_path) (w_fs w)) as [e|fs1];
    [reflexivity|]. simpl.
  destruct (df_to_excel df excel_path fs1) as [e|fs2]; reflexivity.
Qed.

Lemma convert_body_run (pdf_path excel_path : string) (w : World) :
  convert_body pdf_path excel_path w
  = if os_path_exists pdf_path (w_fs w) then
      match pdfplumber_open pdf_path (w_fs w) with
      | inl e => (inl e, w)
      | inr pages =>
          let all_tables := stitched (map fragment_of pages) in
          let w1 := read_world pdf_path pages w in
          if no_valid_table all_tables
          then (inr false, log_more w1 [no_table_record])
          else
            match frame_of all_tables with
            | inl e => (inl e, w1)
            | inr df => save_frame df excel_path w1
            end
      end
    else (inr false, log_more w [not_found_record pdf_path]).
Proof.
  unfold convert_body. unfold bind at 1. unfold read_fs.
  destruct (os_path_exists pdf_path (w_fs w)); simpl; [|reflexivity].
  unfold bind at 1. rewrite read_tables_run.
  destruct (pdfplumber_open pdf_path (w_fs w)) as [e|pages]; [reflexivity|].
  simpl. destruct (no_valid_table (stitched (map fragment_of pages)));
    [reflexivity|].
  unfold bind. rewrite make_frame_run.
  destruct (frame_of _); reflexivity.
Qed.

Lemma convert_run (pdf_path excel_path : string) (w : World) :
  convert_pdf_to_excel pdf_path excel_path w
  = match convert_body pdf_path excel_path w with
    | (inl e, w') => (inr false, log_more w' [failure_record e])
    | (inr b, w') => (inr b, w')
    end.
Proof.
  unfold convert_pdf_to_excel, try_except.
  destruct (convert_body pdf_path excel_path w) as [[e|b] w'];
    reflexivity.
Qed.

Lemma convert_returns (pdf_path excel_path : string) (w : World) :
  exists (b : bool) (w' : World),
    convert_pdf_to_excel pdf_path excel_path w = (inr b, w').
Proof.
  rewrite convert_run.
  destruct (convert_body pdf_path excel_path w) as [[e|b] w'];
    eexists; eexists; reflexivity.
Qed.

Lemma tabular_content_run (pdf_path : string) (w : World) :
  fst (tabular_content pdf_path w)
  = match pdfplumber_open pdf_path (w_fs w) with
    | inl e => inl e
    | inr pages =>
        let all_tables := stitched (map fragment_of pages) in
        if no_valid_table all_tables then inr None
        else
          match frame_of all_tables with
          | inl e => inl e
          | inr df => inr (Some df)
          end
    end.
Proof.
  unfold tabular_content. unfold bind at 1. rewrite read_tables_run.
  destruct (pdfplumber_open pdf_path (w_fs w)) as [e|pages]; [reflexivity|].
  cbv zeta.
  destruct (no_valid_table (stitched (map fragment_of pages)));
    [reflexivity|].
  unfold bind. rewrite make_frame_run.
  destruct (frame_of _); reflexivity.
Qed.

(** What a successful call went through. *)
Lemma convert_true_inv (pdf_path excel_path : string) (w w' : World) :
  convert_pdf_to_excel pdf_path excel_path w = (inr true, w') ->
  exists pages df fs1,
    os_path_exists pdf_path (w_fs w) = true
    /\ pdfplumber_open pdf_path (w_fs w) = inr pages
    /\ no_valid_table (stitched (map fragment_of pages)) = false
    /\ frame_of (stitched (map fragment_of pages)) = inr df
    /\ os_makedirs (dirname excel_path) (w_fs w) = inr fs1
    /\ df_to_excel df excel_path fs1 = inr (w_fs w')
    /\ w_log w'
       = w_log w ++ flat_map extraction_warnings pages
         ++ [success_record excel_path].
Proof.
  rewrite convert_run, convert_body_run.
  destruct (os_path_exists pdf_path (w_fs w)); [|discriminate].
  destruct (pdfplumber_open pdf_path (w_fs w)) as [e|pages];
    [discriminate|].
  cbv zeta.
  destruct (no_valid_table (stitched (map fragment_of pages))) eqn:Hv;
    [discriminate|].
  destruct (frame_of _) as [e|df] eqn:Hf; [discriminate|].
  rewrite save_frame_run. simpl.
  destruct (os_makedirs _ _) as [e|fs1] eqn:Hm; [discriminate|].
  destruct (df_to_excel _ _ _) as [e|fs2] eqn:He; [discriminate|].
  intros [= <-]. exists pages, df, fs1. simpl.
  rewrite <- app_assoc. repeat split; auto.
Qed.

(* ===================================================================== *)
(** ** Column by column: all or nothing *)

Lemma cell_eqb_refl (c : Cell) : cell_eqb c c = true.
Proof. destruct c as [s|]; simpl; [apply String.eqb_refl|reflexivity]. Qed.

Lemma label_eqb_refl (l : label) : label_eqb l l = true.
Proof. destruct l; simpl; [apply cell_eqb_refl|apply Nat.eqb_refl]. Qed.

Lemma to_numeric_series_twice (s : column num) :
  to_numeric_series parse_num (to_numeric_series parse_num s)
  = to_numeric_series parse_num s.
Proof.
  destruct s as [cells|values]; simpl; [|reflexivity].
  destruct (parse_all parse_num cells) eqn:E; simpl; [reflexivity|].
  now rewrite E.
Qed.

Lemma map_snd_combine_same {A B} (ls : list A) :
  forall ds : list B,
    length ls = length ds -> map snd (combine ls ds) = ds.
Proof.
  induction ls as [|l ls IH]; intros [|d ds]; simpl; try discriminate;
    [reflexivity|].
  intros [= H]. now rewrite IH.
Qed.

Lemma combine_map_combine {A B} (f : A * B -> B) (ls : list A) :
  forall ds : list B,
    combine ls (map f (combine ls ds))
    = map (fun lc => (fst lc, f lc)) (combine ls ds).
Proof.
  induction ls as [|l ls IH]; intros [|d ds]; simpl; try reflexivity.
  now rewrite IH.
Qed.

Lemma filter_fst_combine_length {A B} (f : A -> bool) (ls : list A) :
  forall ds : list B,
    length ls = length ds ->
    length (filter (fun lc => f (fst lc)) (combine ls ds))
    = length (filter f ls).
Proof.
  induction ls as [|l ls IH]; intros [|d ds]; simpl; try discriminate;
    [reflexivity|].
  intros [= H]. destruct (f l); simpl; now rewrite IH.
Qed.

Lemma labelled_count (df : DataFrame num) (col : label) :
  length (df_columns df) = length (df_data df) ->
  length (labelled df col) = count_label (df_columns df) col.
Proof.
  intros H. unfold labelled, count_label. rewrite length_map.
  now apply (filter_fst_combine_length (fun l => label_eqb l col)).
Qed.

Lemma labelled_single (df : DataFrame num) (col : label) (s : column num) :
  labelled df col = [s] ->
  forall lc,
    In lc (combine (df_columns df) (df_data df)) ->
    label_eqb (fst lc) col = true -> snd lc = s.
Proof.
  unfold labelled. intros H lc Hin Heq.
  assert (Hs : In (snd lc) [s]).
  { rewrite <- H. apply in_map. apply filter_In. now split. }
  destruct Hs as [<-|[]]. reflexivity.
Qed.

Lemma numeric_columns_unique (cols : list label) :
  forall df : DataFrame num,
    length (df_columns df) = length (df_data df) ->
    (forall col, In col cols -> count_label (df_columns df) col = 1) ->
    numeric_columns cols df
    = inr (mkDataFrame (df_columns df) (df_index df) (converted cols df)).
Proof.
  induction cols as [|col rest IH]; intros df Hlen Huniq.
  - simpl. unfold converted. simpl.
    change (fun lc : label * column num => snd lc) with (@snd label (column num)).
    rewrite map_snd_combine_same by exact Hlen. now destruct df.
  - simpl.
    assert (Hone : length (labelled df col) = 1).
    { rewrite labelled_count by exact Hlen. apply Huniq. now left. }
    destruct (labelled df col) as [|s [|s' cs]] eqn:Hl; try discriminate.
    unfold numeric_column, df_getitem. rewrite Hl. simpl.
    rewrite IH; simpl.
    + f_equal. f_equal. unfold converted. simpl.
      rewrite combine_map_combine, map_map.
      apply map_ext_in. intros lc Hin. simpl.
      destruct (label_eqb (fst lc) col) eqn:Heq; simpl.
      * rewrite (labelled_single df col s Hl lc Hin Heq).
        destruct (existsb _ rest); [apply to_numeric_series_twice|reflexivity].
      * reflexivity.
    + rewrite length_map, length_combine, <- Hlen. now rewrite Nat.min_id.
    + intros c Hc. apply Huniq. now right.
Qed.

Lemma unique_labels_count (labels : list label) :
  unique_labels labels = true ->
  forall col, In col labels -> count_label labels col = 1.
Proof.
  unfold unique_labels. intros H col Hin.
  rewrite forallb_forall in H. apply Nat.eqb_eq. now apply H.
Qed.

(** With labels that occur once each the loop succeeds, and every column
    is numeric when all its cells parse and is left as it was when one
    does not. *)
Lemma numeric_columns_all_or_nothing (df : DataFrame num) :
  length (df_columns df) = length (df_data df) ->
  unique_labels (df_columns df) = true ->
  numeric_columns (df_columns df) df
  = inr (mkDataFrame (df_columns df) (df_index df)
           (map (to_numeric_series parse_num) (df_data df))).
Proof.
  intros Hlen Hu.
  rewrite numeric_columns_unique
    by (try exact Hlen; now apply unique_labels_count).
  f_equal. f_equal. unfold converted.
  rewrite <- (map_snd_combine_same (df_columns df) (df_data df) Hlen) at 2.
  rewrite map_map. apply map_ext_in. intros lc Hin.
  replace (existsb (label_eqb (fst lc)) (df_columns df)) with true;
    [reflexivity|].
  symmetry. apply existsb_exists. exists (fst lc). split.
  - destruct lc as [l c]. now apply in_combine_l in Hin.
  - apply label_eqb_refl.
Qed.

(** A label that occurs more than once stops the loop with an error that
    is not a [ValueError]: it reaches the top-level handler. *)
Lemma numeric_columns_duplicate (cols : list label) :
  forall df : DataFrame num,
    length (df_columns df) = length (df_data df) ->
    (exists col, In col cols /\ count_label (df_columns df) col <> 1) ->
    exists e, numeric_columns cols df = inl e /\ is_ValueError e = false.
Proof.
  induction cols as [|col rest IH]; intros df Hlen (bad & Hin & Hbad).
  - destruct Hin.
  - simpl. unfold numeric_column, df_getitem.
    pose proof (labelled_count df col Hlen) as Hc.
    destruct (labelled df col) as [|s [|s' cs]] eqn:Hl; simpl.
    + eexists. split; reflexivity.
    + destruct Hin as [<-|Hin]; [simpl in Hc; congruence|].
      apply IH; simpl.
      * rewrite length_map, length_combine, <- Hlen. now rewrite Nat.min_id.
      * exists bad. now split.
    + eexists. split; reflexivity.
Qed.

(* ===================================================================== *)
(** ** The frame that is built *)

Lemma build_frame_shape (all_tables : Table) (df : DataFrame num) :
  build_frame all_tables = inr df ->
  df_index df = length (tl all_tables)
  /\ df_columns df
     = match header_argument all_tables with
       | Some hdr => map Named hdr
       | None => map Ordinal (seq 0 (row_width (tl all_tables)))
       end
  /\ length (df_columns df) = length (df_data df).
Proof.
  unfold build_frame, pd_DataFrame.
  destruct (header_argument all_tables) as [hdr|];
    destruct (tl all_tables) as [|r rs].
  - intros [= <-]. simpl. now rewrite !length_map.
  - destruct (length hdr =? row_width (r :: rs)) eqn:E; [|discriminate].
    intros [= <-]. simpl. apply Nat.eqb_eq in E.
    now rewrite !length_map, length_seq.
  - intros [= <-]. simpl. auto.
  - intros [= <-]. simpl. now rewrite !length_map.
Qed.

Lemma frame_of_shape (all_tables : Table) (df : DataFrame num) :
  frame_of all_tables = inr df ->
  df_index df = length (tl all_tables)
  /\ df_columns df
     = match header_argument all_tables with
       | Some hdr => map Named hdr
       | None => map Ordinal (seq 0 (row_width (tl all_tables)))
       end.
Proof.
  unfold frame_of.
  destruct (build_frame all_tables) as [e|df0] eqn:Hb; [discriminate|].
  intros Hn. apply numeric_columns_shape in Hn. destruct Hn as [-> ->].
  apply build_frame_shape in Hb. tauto.
Qed.

(* ===================================================================== *)
(** ** When the frame is built, and when the call succeeds *)

Lemma forallb_false_exists {A} (f : A -> bool) (l : list A) :
  forallb f l = false -> exists x, In x l /\ f x = false.
Proof.
  induction l as [|a l IH]; simpl; [discriminate|].
  destruct (f a) eqn:E; simpl.
  - intros H. destruct (IH H) as (x & Hin & Hx). exists x. auto.
  - intros _. exists a. auto.
Qed.

(** The coercion loop succeeds on a built frame exactly when its labels
    occur once each, whatever the cells are; then every column is the
    result of [to_numeric] on it. *)
Lemma frame_of_built (all_tables : Table) (df0 : DataFrame num) :
  build_frame all_tables = inr df0 ->
  unique_labels (df_columns df0) = true ->
  frame_of all_tables
  = inr (mkDataFrame (df_columns df0) (df_index df0)
           (map (to_numeric_series parse_num) (df_data df0))).
Proof.
  intros Hb Hu. unfold frame_of. rewrite Hb.
  apply numeric_columns_all_or_nothing; [|exact Hu].
  now apply build_frame_shape in Hb.
Qed.

Lemma frame_of_duplicate (all_tables : Table) (df0 : DataFrame num) :
  build_frame all_tables = inr df0 ->
  unique_labels (df_columns df0) = false ->
  exists e, frame_of all_tables = inl e /\ is_ValueError e = false.
Proof.
  intros Hb Hu. unfold frame_of. rewrite Hb.
  apply numeric_columns_duplicate.
  - now apply build_frame_shape in Hb.
  - apply forallb_false_exists in Hu. destruct Hu as (col & Hin & Hc).
    exists col. split; [exact Hin|]. now apply Nat.eqb_neq.
Qed.

Lemma count_ordinal (w : nat) :
  forall a n : nat,
    count_label (map Ordinal (seq a w)) (Ordinal n)
    = if (a <=? n) && (n <? a + w) then 1 else 0.
Proof.
  unfold count_label.
  induction w as [|w IH]; intros a n; simpl.
  - destruct (Nat.leb_spec a n), (Nat.ltb_spec n (a + 0)); simpl;
      reflexivity || lia.
  - destruct (Nat.eqb_spec a n) as [E|E]; simpl; rewrite IH;
      destruct (Nat.leb_spec (S a) n), (Nat.leb_spec a n),
        (Nat.ltb_spec n (S a + w)), (Nat.ltb_spec n (a + S w)); simpl;
      reflexivity || lia.
Qed.

Lemma unique_ordinals (w : nat) : unique_labels (map Ordinal (seq 0 w)) = true.
Proof.
  unfold unique_labels. apply forallb_forall. intros col Hin.
  apply in_map_iff in Hin. destruct Hin as (n & <- & Hn).
  apply in_seq in Hn. rewrite count_ordinal.
  replace (0 <=? n) with true by (symmetry; apply Nat.leb_le; lia).
  replace (n <? 0 + w) with true by (symmetry; apply Nat.ltb_lt; lia).
  reflexivity.
Qed.

(** Without a header argument (a first row of at most one cell) the frame
    is always built, with ordinal labels. *)
Lemma frame_of_ordinals (all_tables : Table) :
  header_argument all_tables = None ->
  frame_of all_tables
  = inr (mkDataFrame
           (map Ordinal (seq 0 (row_width (tl all_tables))))
           (length (tl all_tables))
           (map (to_numeric_series parse_num)
              (map (column_at (tl all_tables))
                 (seq 0 (row_width (tl all_tables)))))).
Proof.
  intros Hh.
  assert (Hb : build_frame all_tables
               = inr (mkDataFrame
                        (map Ordinal (seq 0 (row_width (tl all_tables))))
                        (length (tl all_tables))
                        (map (column_at (tl all_tables))
                           (seq 0 (row_width (tl all_tables)))))).
  { unfold build_frame. rewrite Hh. unfold pd_DataFrame.
    destruct (tl all_tables); reflexivity. }
  rewrite (frame_of_built _ _ Hb); [reflexivity|]. apply unique_ordinals.
Qed.

(** What makes a call succeed. *)
Lemma convert_true_intro (pdf_path excel_path : string) (w : World)
    (pages : list Page) (df : DataFrame num) (fs1 fs2 : FS) :
  os_path_exists pdf_path (w_fs w) = true ->
  pdfplumber_open pdf_path (w_fs w) = inr pages ->
  no_valid_table (stitched (map fragment_of pages)) = false ->
  frame_of (stitched (map fragment_of pages)) = inr df ->
  os_makedirs (dirname excel_path) (w_fs w) = inr fs1 ->
  df_to_excel df excel_path fs1 = inr fs2 ->
  convert_pdf_to_excel pdf_path excel_path w
  = (inr true,
     mkWorld fs2
       (w_log w ++ flat_map extraction_warnings pages
        ++ [success_record excel_path])
       (w_console (read_world pdf_path pages w))).
Proof.
  intros Hex Hopen Hv Hf Hm He.
  rewrite convert_run, convert_body_run, Hex, Hopen. cbv zeta.
  rewrite Hv, Hf, save_frame_run. simpl. rewrite Hm, He.
  now rewrite <- app_assoc.
Qed.

Lemma frame_of_cons (first : Row) (rest : Table) (df : DataFrame num) :
  frame_of (first :: rest) = inr df ->
  df_index df = length rest
  /\ df_columns df
     = if 1 <? length first then map Named first
       else map Ordinal (seq 0 (row_width rest)).
Proof.
  intros Hf. apply frame_of_shape in Hf. simpl in Hf.
  destruct Hf as [Hi Hc]. split; [exact Hi|].
  rewrite Hc. unfold header_argument. simpl.
  destruct (1 <? length first); reflexivity.
Qed.

Lemma no_valid_table_length (all_tables : Table) :
  no_valid_table all_tables = true <-> length all_tables <= 1.
Proof.
  unfold no_valid_table. destruct all_tables as [|r [|r' rest]]; simpl;
    split; intros; try lia; try reflexivity; try discriminate.
Qed.

(* ===================================================================== *)
(** ** The same table on every page *)

Lemma present_repeat (t : Table) (n : nat) :
  t <> [] ->
  present (map fragment_of (repeat (mkPage (Returns (Some t))) n))
  = repeat t n.
Proof.
  intros Ht. destruct t as [|r rs]; [congruence|].
  induction n as [|n IH]; simpl; [reflexivity|]. now rewrite IH.
Qed.

Lemma length_concat_repeat {A} (l : list A) (n : nat) :
  length (concat (repeat l n)) = n * length l.
Proof.
  induction n as [|n IH]; simpl; [reflexivity|].
  now rewrite length_app, IH.
Qed.

Lemma stitched_repeat (header : Row) (data : Table) (n : nat) :
  1 <= n ->
  stitched
    (map fragment_of (repeat (mkPage (Returns (Some (header :: data)))) n))
  = header :: concat (repeat data n).
Proof.
  intros Hn. unfold stitched. rewrite present_repeat by discriminate.
  destruct n as [|n]; [lia|]. simpl.
  now rewrite map_repeat.
Qed.

(* ===================================================================== *)
(** ** The page loop and [extract_table_from_page] *)

Lemma present_fragments (pages : list Page) :
  present (map fragment_of pages)
  = flat_map
      (fun page => match fragment_of page with Some t => [t] | None => [] end)
      pages.
Proof.
  induction pages as [|page rest IH]; simpl; [reflexivity|].
  pose proof (fragment_of_truthy page) as H.
  destruct (fragment_of page) as [t|]; [|exact IH].
  destruct H as [-> _]. simpl. now rewrite IH.
Qed.

(** C1.  Whatever the pages give, the loop of [convert_pdf_to_excel] ends
    with the first fragment that is present, whole, followed by every
    later present fragment without its first row, in page order (and with
    the empty table when no fragment is present).  The fragments that are
    present are exactly those [extract_table_from_page] returns as a
    table. *)
Theorem C1_accumulated_table :
  forall (total_pages : nat) (pages : list Page) (w : World),
    fst (for_pages total_pages (enumerate_from_1 pages) [] w)
    = inr (match present (map fragment_of pages) with
           | [] => []
           | first :: later => first ++ concat (map (@tl Row) later)
           end)
    /\ present (map fragment_of pages)
       = flat_map
           (fun page =>
              match fragment_of page with Some t => [t] | None => [] end)
           pages
    /\ (forall fragments : list (option Table),
          fold_left stitch fragments []
          = match present fragments with
            | [] => []
            | first :: later => first ++ concat (map (@tl Row) later)
            end).
Proof.
  intros total_pages pages w. split; [|split].
  - rewrite for_pages_run. simpl.
    now rewrite enumerate_pages, fold_stitch_stitched.
  - apply present_fragments.
  - intros fragments. apply fold_stitch_stitched.
Qed.

(** C6.  [extract_table_from_page] returns the table exactly when the
    extraction returns one with at least one row; it returns [None] when
    the extraction returns [None] or an empty table, and when it raises:
    then it logs one warning and raises nothing.  In the page loop a page
    that raises contributes nothing and the pages after it are
    processed. *)
Theorem C6_extract_page_table :
  forall (page : Page) (w : World),
    match page_extract_table page with
    | Returns (Some (r :: rs)) =>
        extract_table_from_page page w = (inr (Some (r :: rs)), w)
    | Returns (Some []) => extract_table_from_page page w = (inr None, w)
    | Returns None => extract_table_from_page page w = (inr None, w)
    | Raises e =>
        extract_table_from_page page w
        = (inr None,
           log_more w
             [(WARNING,
               ("Could not extract table from page: " ++ exn_str e)%string)])
    end
    /\ (forall (total_pages : nat) (before after : list Page) (e : exn),
          fst (for_pages total_pages
                 (enumerate_from_1 (before ++ mkPage (Raises e) :: after))
                 [] w)
          = inr (fold_left stitch (map fragment_of after)
                   (fold_left stitch (map fragment_of before) []))).
Proof.
  intros page w. split.
  - rewrite extract_table_from_page_run.
    unfold fragment_of, extraction_warnings, log_more.
    destruct (page_extract_table page) as [e|[[|r rs]|]]; simpl;
      rewrite ?app_nil_r, ?world_eta; reflexivity.
  - intros total_pages before after e.
    rewrite for_pages_run. simpl. rewrite enumerate_pages.
    rewrite map_app, fold_left_app. reflexivity.
Qed.

(* ===================================================================== *)
(** ** Failure returns of [convert_pdf_to_excel] *)

Lemma stitched_nothing_present (pages : list Page) :
  (forall page, In page pages -> fragment_of page = None) ->
  stitched (map fragment_of pages) = [].
Proof.
  intros H. unfold stitched. rewrite present_fragments.
  replace (flat_map _ pages) with (@nil Table); [reflexivity|].
  induction pages as [|page rest IH]; simpl; [reflexivity|].
  rewrite (H page) by now left. simpl.
  apply IH. intros q Hq. apply H. now right.
Qed.

(** C5.  When the pages are read and the accumulated table has no row or
    one row, the call returns [False] from the body itself (not from the
    top-level handler), having logged the warning; this is the case when
    no page gives a table. *)
Theorem C5_no_usable_table :
  forall (pdf_path excel_path : string) (w : World) (pages : list Page),
    os_path_exists pdf_path (w_fs w) = true ->
    pdfplumber_open pdf_path (w_fs w) = inr pages ->
    length (stitched (map fragment_of pages)) <= 1 ->
    convert_body pdf_path excel_path w
    = (inr false, log_more (read_world pdf_path pages w) [no_table_record])
    /\ convert_pdf_to_excel pdf_path excel_path w
       = (inr false, log_more (read_world pdf_path pages w) [no_table_record])
    /\ w_log (snd (convert_pdf_to_excel pdf_path excel_path w))
       = w_log w ++ flat_map extraction_warnings pages
         ++ [(WARNING, "No valid table data found in PDF"%string)]
    /\ ((forall page, In page pages -> fragment_of page = None) ->
        stitched (map fragment_of pages) = []).
Proof.
  intros pdf_path excel_path w pages Hex Hopen Hlen.
  assert (Hbody : convert_body pdf_path excel_path w
                  = (inr false,
                     log_more (read_world pdf_path pages w) [no_table_record])).
  { rewrite convert_body_run, Hex, Hopen. cbv zeta.
    apply no_valid_table_length in Hlen. now rewrite Hlen. }
  assert (Hrun : convert_pdf_to_excel pdf_path excel_path w
                 = (inr false,
                    log_more (read_world pdf_path pages w) [no_table_record]))
    by now rewrite convert_run, Hbody.
  split; [exact Hbody|]. split; [exact Hrun|]. split.
  - rewrite Hrun. simpl. now rewrite <- app_assoc.
  - apply stitched_nothing_present.
Qed.

(** C7.  The call always ends with a boolean.  It is [False], with the
    error logged, when the input path does not exist; it is [False], with
    the error logged by the top-level handler, whenever the body raises
    (as it does when opening the document, building the frame, creating
    the directory or writing the file raises); and it is [True] only when
    the spreadsheet writer wrote the file. *)
Theorem C7_never_raises :
  forall (pdf_path excel_path : string) (w : World),
    (exists (b : bool) (w' : World),
        convert_pdf_to_excel pdf_path excel_path w = (inr b, w'))
    /\ (os_path_exists pdf_path (w_fs w) = false ->
        convert_pdf_to_excel pdf_path excel_path w
        = (inr false,
           log_more w [(ERROR, ("PDF file not found: " ++ pdf_path)%string)]))
    /\ (forall (e : exn) (w1 : World),
          convert_body pdf_path excel_path w = (inl e, w1) ->
          convert_pdf_to_excel pdf_path excel_path w
          = (inr false,
             log_more w1
               [(ERROR, ("Conversion failed: " ++ exn_str e)%string)]))
    /\ (forall e : exn,
          os_path_exists pdf_path (w_fs w) = true ->
          pdfplumber_open pdf_path (w_fs w) = inl e ->
          convert_body pdf_path excel_path w = (inl e, w))
    /\ (forall (pages : list Page) (e : exn),
          os_path_exists pdf_path (w_fs w) = true ->
          pdfplumber_open pdf_path (w_fs w) = inr pages ->
          no_valid_table (stitched (map fragment_of pages)) = false ->
          frame_of (stitched (map fragment_of pages)) = inl e ->
          convert_body pdf_path excel_path w
          = (inl e, read_world pdf_path pages w))
    /\ (forall (df : DataFrame num) (e : exn) (w1 : World),
          os_makedirs (dirname excel_path) (w_fs w1) = inl e ->
          save_frame df excel_path w1 = (inl e, w1))
    /\ (forall (df : DataFrame num) (e : exn) (w1 : World) (fs1 : FS),
          os_makedirs (dirname excel_path) (w_fs w1) = inr fs1 ->
          df_to_excel df excel_path fs1 = inl e ->
          fst (save_frame df excel_path w1) = inl e)
    /\ (forall w' : World,
          convert_pdf_to_excel pdf_path excel_path w = (inr true, w') ->
          exists (df : DataFrame num) (fs1 : FS),
            os_makedirs (dirname excel_path) (w_fs w) = inr fs1
            /\ df_to_excel df excel_path fs1 = inr (w_fs w')).
Proof.
  intros pdf_path excel_path w. repeat split.
  - apply convert_returns.
  - intros Hex. now rewrite convert_run, convert_body_run, Hex.
  - intros e w1 Hbody. now rewrite convert_run, Hbody.
  - intros e Hex Hopen. now rewrite convert_body_run, Hex, Hopen.
  - intros pages e Hex Hopen Hv Hf.
    rewrite convert_body_run, Hex, Hopen. cbv zeta. now rewrite Hv, Hf.
  - intros df e w1 Hm. now rewrite save_frame_run, Hm.
  - intros df e w1 fs1 Hm He. now rewrite save_frame_run, Hm, He.
  - intros w' H. apply convert_true_inv in H.
    destruct H as (pages & df & fs1 & _ & _ & _ & _ & Hm & He & _).
    exists df, fs1. split; assumption.
Qed.

(** C9, amended.  On the two failure returns, when the input path does
    not exist and when the accumulated table has at most one row, the call
    returns [False] without going through [os.makedirs] or [to_excel]: no
    output file is written and no output directory is created.  The one
    file that changes is the log file, which gains the records of the
    call: the warnings of the pages that raised and the record of the
    failure. *)
Theorem C9_failure_touches_log_only :
  forall (pdf_path excel_path : string) (w : World),
    (os_path_exists pdf_path (w_fs w) = false ->
     fst (convert_pdf_to_excel pdf_path excel_path w) = inr false
     /\ w_fs (snd (convert_pdf_to_excel pdf_path excel_path w)) = w_fs w
     /\ filesystem (snd (convert_pdf_to_excel pdf_path excel_path w))
        = (w_fs w, w_log w ++ [not_found_record pdf_path]))
    /\ (forall pages : list Page,
          os_path_exists pdf_path (w_fs w) = true ->
          pdfplumber_open pdf_path (w_fs w) = inr pages ->
          length (stitched (map fragment_of pages)) <= 1 ->
          fst (convert_pdf_to_excel pdf_path excel_path w) = inr false
          /\ w_fs (snd (convert_pdf_to_excel pdf_path excel_path w)) = w_fs w
          /\ filesystem (snd (convert_pdf_to_excel pdf_path excel_path w))
             = (w_fs w,
                w_log w ++ flat_map extraction_warnings pages
                ++ [no_table_record])).
Proof.
  intros pdf_path excel_path w. split.
  - intros Hex. rewrite convert_run, convert_body_run, Hex.
    repeat split.
  - intros pages Hex Hopen Hlen.
    rewrite convert_run, convert_body_run, Hex, Hopen. cbv zeta.
    apply no_valid_table_length in Hlen. rewrite Hlen.
    repeat split. unfold filesystem. simpl. now rewrite <- app_assoc.
Qed.

(* ===================================================================== *)
(** ** Output paths without a directory *)

Lemma head_part_bare (p : string) :
  contains_sep p = false -> head_part p = EmptyString.
Proof.
  destruct p as [|c r]; simpl; [reflexivity|].
  intros H. apply orb_false_iff in H. destruct H as [-> ->]. reflexivity.
Qed.

Lemma dirname_bare (p : string) :
  bare_filename p -> dirname p = EmptyString.
Proof.
  unfold bare_filename, dirname. intros H.
  now rewrite (head_part_bare p H).
Qed.

(** C10.  With [os.makedirs] raising [FileNotFoundError] on the empty
    name, a call whose output path is a bare file name returns [False],
    whatever the input.  When the document exists and gives a table a
    frame is built from, it is the directory creation that raises, and the
    top-level handler logs the error and returns [False]. *)
Theorem C10_bare_output_name_fails :
  forall (pdf_path excel_path : string) (w : World),
    bare_filename excel_path ->
    (forall fs : FS,
        exists m : string,
          os_makedirs EmptyString fs = inl (Exn FileNotFoundError m)) ->
    fst (convert_pdf_to_excel pdf_path excel_path w) = inr false
    /\ dirname excel_path = EmptyString
    /\ (forall (pages : list Page) (df : DataFrame num),
          os_path_exists pdf_path (w_fs w) = true ->
          pdfplumber_open pdf_path (w_fs w) = inr pages ->
          no_valid_table (stitched (map fragment_of pages)) = false ->
          frame_of (stitched (map fragment_of pages)) = inr df ->
          exists m : string,
            convert_body pdf_path excel_path w
            = (inl (Exn FileNotFoundError m), read_world pdf_path pages w)
            /\ convert_pdf_to_excel pdf_path excel_path w
               = (inr false,
                  log_more (read_world pdf_path pages w)
                    [(ERROR, ("Conversion failed: " ++ m)%string)])).
Proof.
  intros pdf_path excel_path w Hbare Hmk.
  pose proof (dirname_bare excel_path Hbare) as Hdir.
  split; [|split; [exact Hdir|]].
  - destruct (convert_returns pdf_path excel_path w) as (b & w' & E).
    rewrite E. simpl. destruct b; [|reflexivity].
    apply convert_true_inv in E.
    destruct E as (pages & df & fs1 & _ & _ & _ & _ & Hm & _).
    rewrite Hdir in Hm. destruct (Hmk (w_fs w)) as [m Hm'].
    congruence.
  - intros pages df Hex Hopen Hv Hf.
    destruct (Hmk (w_fs (read_world pdf_path pages w))) as [m Hm].
    exists m.
    assert (Hbody : convert_body pdf_path excel_path w
                    = (inl (Exn FileNotFoundError m),
                       read_world pdf_path pages w)).
    { rewrite convert_body_run, Hex, Hopen. cbv zeta. rewrite Hv, Hf.
      now rewrite save_frame_run, Hdir, Hm. }
    split; [exact Hbody|].
    now rewrite convert_run, Hbody.
Qed.

(* ===================================================================== *)
(** ** Determinism *)

(** C8.  Two calls that read the same document hold the same frame when
    they reach line 85: the same labels, the same rows in the same order,
    the same column types.  Whatever the rest of the world is (the log,
    the console, the files left by an earlier call), each call that
    returns [True] has handed exactly that frame to the writer. *)
Theorem C8_same_tabular_content :
  forall (pdf_path excel_path : string) (w1 w2 : World),
    pdfplumber_open pdf_path (w_fs w1) = pdfplumber_open pdf_path (w_fs w2) ->
    fst (tabular_content pdf_path w1) = fst (tabular_content pdf_path w2)
    /\ (forall w1' : World,
          convert_pdf_to_excel pdf_path excel_path w1 = (inr true, w1') ->
          exists (df : DataFrame num) (fs : FS),
            fst (tabular_content pdf_path w1) = inr (Some df)
            /\ df_to_excel df excel_path fs = inr (w_fs w1'))
    /\ (forall w2' : World,
          convert_pdf_to_excel pdf_path excel_path w2 = (inr true, w2') ->
          exists (df : DataFrame num) (fs : FS),
            fst (tabular_content pdf_path w1) = inr (Some df)
            /\ df_to_excel df excel_path fs = inr (w_fs w2')).
Proof.
  intros pdf_path excel_path w1 w2 Hsame.
  assert (Hwritten : forall w w' : World,
             convert_pdf_to_excel pdf_path excel_path w = (inr true, w') ->
             exists (df : DataFrame num) (fs : FS),
               fst (tabular_content pdf_path w) = inr (Some df)
               /\ df_to_excel df excel_path fs = inr (w_fs w')).
  { intros w w' Hrun. apply convert_true_inv in Hrun.
    destruct Hrun as (pages & df & fs1 & _ & Hopen & Hv & Hf & _ & He & _).
    exists df, fs1. split; [|exact He].
    rewrite tabular_content_run, Hopen. cbv zeta. now rewrite Hv, Hf. }
  assert (Heq : fst (tabular_content pdf_path w1)
                = fst (tabular_content pdf_path w2))
    by now rewrite !tabular_content_run, Hsame.
  split; [exact Heq|]. split.
  - intros w1'. apply Hwritten.
  - intros w2' Hrun. rewrite Heq. now apply Hwritten.
Qed.

End Properties.

(* ===================================================================== *)
(** ** Runs on the small platform *)

Section Runs.

Import Demo.
Local Open Scope string_scope.

(** C3 at a column that does not parse.  The table of [in/readings.pdf]
    has the column [k] = "1", "x", "3" and the column [v] = "4", "5", "6".
    The call returns [True]; [k] is written with its three cells as they
    were and [v] as numbers; and the log holds the success record only:
    no warning was logged for [k]. *)
Theorem C3_unparsed_column_is_not_logged :
  fst (convert_pdf_to_excel (P := platform)
         "in/readings.pdf" "out/readings.xlsx" start)
  = inr true
  /\ sheets
       (w_fs (snd (convert_pdf_to_excel (P := platform)
                     "in/readings.pdf" "out/readings.xlsx" start)))
     = [("out/readings.xlsx",
         mkDataFrame [Named (text "k"); Named (text "v")] 3
           [ObjectCol [text "1"; text "x"; text "3"]; NumericCol [4; 5; 6]])]
  /\ w_log (snd (convert_pdf_to_excel (P := platform)
                   "in/readings.pdf" "out/readings.xlsx" start))
     = [(INFO, "Successfully converted to: out/readings.xlsx")].
Proof. vm_compute. repeat split. Qed.

Lemma C5_no_usable_table_witness :
  convert_pdf_to_excel (P := platform) "in/empty.pdf" "out/empty.xlsx" start
  = (inr false,
     log_more (read_world "in/empty.pdf" [blank_page; broken_page] start)
       [no_table_record]).
Proof.
  assert (Hlen : length (stitched (map fragment_of [blank_page; broken_page]))
                 <= 1) by (simpl; lia).
  destruct (C5_no_usable_table (P := platform)
              "in/empty.pdf" "out/empty.xlsx" start
              [blank_page; broken_page] eq_refl eq_refl Hlen)
    as (_ & Hrun & _).
  exact Hrun.
Defined.

Lemma C7_never_raises_witness :
  convert_pdf_to_excel (P := platform) "in/missing.pdf" "out/m.xlsx" start
  = (inr false, log_more start [(ERROR, "PDF file not found: in/missing.pdf")]).
Proof.
  destruct (C7_never_raises (P := platform)
              "in/missing.pdf" "out/m.xlsx" start)
    as (_ & Hmissing & _).
  apply Hmissing. reflexivity.
Defined.

Lemma C9_failure_touches_log_only_witness :
  w_fs (snd (convert_pdf_to_excel (P := platform)
               "in/missing.pdf" "out/m.xlsx" start)) = disk
  /\ w_fs (snd (convert_pdf_to_excel (P := platform)
                  "in/empty.pdf" "out/empty.xlsx" start)) = disk.
Proof.
  assert (Hlen : length (stitched (map fragment_of [blank_page; broken_page]))
                 <= 1) by (simpl; lia).
  split.
  - destruct (C9_failure_touches_log_only (P := platform)
                "in/missing.pdf" "out/m.xlsx" start) as (Hmissing & _).
    destruct (Hmissing eq_refl) as (_ & Hfs & _). exact Hfs.
  - destruct (C9_failure_touches_log_only (P := platform)
                "in/empty.pdf" "out/empty.xlsx" start) as (_ & Hempty).
    destruct (Hempty [blank_page; broken_page] eq_refl eq_refl Hlen)
      as (_ & Hfs & _). exact Hfs.
Defined.

(** C9 as stated fails: the call on a path that does not exist returns
    [False] and leaves a file system that differs from the one it started
    in, by the record appended to the log file. *)
Lemma C9_log_file_grows :
  os_path_exists (Platform := platform) "in/missing.pdf" (w_fs start) = false
  /\ fst (convert_pdf_to_excel (P := platform)
            "in/missing.pdf" "out/m.xlsx" start) = inr false
  /\ filesystem (snd (convert_pdf_to_excel (P := platform)
                        "in/missing.pdf" "out/m.xlsx" start))
     <> filesystem start.
Proof.
  split; [reflexivity|]. split; [reflexivity|].
  vm_compute. intros H. discriminate H.
Qed.

Lemma C10_bare_output_name_fails_witness :
  bare_filename "people.xlsx"
  /\ fst (convert_pdf_to_excel (P := platform)
            "in/people.pdf" "people.xlsx" start) = inr false.
Proof.
  assert (Hbare : bare_filename "people.xlsx") by reflexivity.
  assert (Hmk : forall fs : files,
             exists m : string,
               makedirs EmptyString fs = inl (Exn FileNotFoundError m))
    by (intros fs; eexists; reflexivity).
  split; [exact Hbare|].
  destruct (C10_bare_output_name_fails (P := platform)
              "in/people.pdf" "people.xlsx" start Hbare Hmk)
    as (Hfalse & _).
  exact Hfalse.
Defined.

Lemma C8_same_tabular_content_witness :
  fst (tabular_content (P := platform) "in/people.pdf" start)
  = fst (tabular_content (P := platform) "in/people.pdf"
           (snd (convert_pdf_to_excel (P := platform)
                   "in/people.pdf" "out/people.xlsx" start))).
Proof.
  destruct (C8_same_tabular_content (P := platform)
              "in/people.pdf" "out/people.xlsx" start
              (snd (convert_pdf_to_excel (P := platform)
                      "in/people.pdf" "out/people.xlsx" start))
              eq_refl)
    as (Hsame & _).
  exact Hsame.
Defined.

End Runs.

(* ===================================================================== *)
(** ** More on the table stage (lines 72-83) *)

Section Coverage.

Context {P : Platform}.

Lemma count_label_member (labels : list label) (col : label) :
  In col labels -> 1 <= count_label labels col.
Proof.
  unfold count_label. induction labels as [|l rest IH]; intros Hin.
  - destruct Hin.
  - simpl. destruct Hin as [->|Hin].
    + rewrite label_eqb_refl. simpl. lia.
    + destruct (label_eqb l col); simpl; [lia|now apply IH].
Qed.

(** With a label of the frame that occurs more than once, the loop ends
    with the [TypeError] of [to_numeric] on a sub-frame. *)
Lemma numeric_columns_sub_frame (cols : list label) :
  forall df : DataFrame num,
    length (df_columns df) = length (df_data df) ->
    (forall col, In col cols -> In col (df_columns df)) ->
    (exists col, In col cols /\ count_label (df_columns df) col <> 1) ->
    numeric_columns cols df
    = inl (Exn TypeError "arg must be a list, tuple, 1-d array, or Series").
Proof.
  induction cols as [|col rest IH]; intros df Hlen Hsub (bad & Hin & Hbad).
  - destruct Hin.
  - simpl. unfold numeric_column, df_getitem.
    pose proof (labelled_count df col Hlen) as Hc.
    pose proof (count_label_member (df_columns df) col
                  (Hsub col (or_introl eq_refl))) as Hone.
    destruct (labelled df col) as [|s [|s' cs]] eqn:Hl; simpl.
    + simpl in Hc. lia.
    + destruct Hin as [<-|Hin]; [simpl in Hc; congruence|].
      apply IH; simpl.
      * rewrite length_map, length_combine, <- Hlen. now rewrite Nat.min_id.
      * intros c Hc'. apply Hsub. now right.
      * exists bad. now split.
    + reflexivity.
Qed.

Lemma build_frame_header (all_tables : Table) (hdr : Row) :
  header_argument all_tables = Some hdr ->
  build_frame all_tables
  = match tl all_tables with
    | [] => inr (mkDataFrame (map Named hdr) 0 (map (fun _ => ObjectCol []) hdr))
    | _ :: _ =>
        if length hdr =? row_width (tl all_tables) then
          inr (mkDataFrame (map Named hdr) (length (tl all_tables))
                 (map (column_at (tl all_tables))
                    (seq 0 (row_width (tl all_tables)))))
        else
          inl (Exn ValueError
                 (decimal (length hdr) ++ " columns passed, passed data had "
                  ++ decimal (row_width (tl all_tables)) ++ " columns")%string)
    end.
Proof.
  intros Hh. unfold build_frame. rewrite Hh. unfold pd_DataFrame.
  destruct (tl all_tables); reflexivity.
Qed.

(** X1.  The table stage of a conversion (the [DataFrame] constructor and
    the coercion loop) succeeds exactly when the first row is not used as
    header (it has at most one cell), or it is as wide as the widest data
    row (or there is no data row) and none of its cells occurs twice.  The
    values of the data cells play no part in it. *)
Theorem X1_table_stage_succeeds_iff :
  forall all_tables : Table,
    (exists df : DataFrame num, frame_of all_tables = inr df)
    <-> frame_ok all_tables = true.
Proof.
  intros all_tables. unfold frame_ok. split.
  - intros [df Hf].
    destruct (header_argument all_tables) as [hdr|] eqn:Hh; [|reflexivity].
    unfold frame_of in Hf. rewrite (build_frame_header _ _ Hh) in Hf.
    destruct (tl all_tables) as [|r rs] eqn:Ht; simpl.
    + destruct (unique_labels (map Named hdr)) eqn:Hu; [reflexivity|].
      apply forallb_false_exists in Hu. destruct Hu as (col & Hin & Hc).
      apply Nat.eqb_neq in Hc. simpl in Hf.
      rewrite numeric_columns_sub_frame in Hf; simpl;
        [discriminate|now rewrite !length_map|auto|].
      exists col. now split.
    + destruct (length hdr =? row_width (r :: rs)) eqn:Hw; [|discriminate].
      simpl.
      destruct (unique_labels (map Named hdr)) eqn:Hu; [reflexivity|].
      apply forallb_false_exists in Hu. destruct Hu as (col & Hin & Hc).
      apply Nat.eqb_neq in Hc. apply Nat.eqb_eq in Hw. simpl in Hf.
      rewrite numeric_columns_sub_frame in Hf; simpl;
        [discriminate|now rewrite !length_map, length_seq|auto|].
      exists col. now split.
  - destruct (header_argument all_tables) as [hdr|] eqn:Hh.
    + intros Hok. apply andb_true_iff in Hok. destruct Hok as [Hw Hu].
      pose proof (build_frame_header _ _ Hh) as Hb.
      destruct (tl all_tables) as [|r rs] eqn:Ht.
      * eexists. apply (frame_of_built _ _ Hb). exact Hu.
      * simpl in Hw. rewrite Hw in Hb.
        eexists. apply (frame_of_built _ _ Hb). exact Hu.
    + intros _. eexists. now apply frame_of_ordinals.
Qed.

Lemma frame_of_inv (all_tables : Table) (df : DataFrame num) :
  frame_of all_tables = inr df ->
  exists df0 : DataFrame num,
    build_frame all_tables = inr df0
    /\ unique_labels (df_columns df0) = true
    /\ df = mkDataFrame (df_columns df0) (df_index df0)
              (map (to_numeric_series parse_num) (df_data df0)).
Proof.
  intros Hf.
  destruct (build_frame all_tables) as [e|df0] eqn:Hb.
  - unfold frame_of in Hf. rewrite Hb in Hf. discriminate.
  - exists df0. split; [reflexivity|].
    destruct (unique_labels (df_columns df0)) eqn:Hu.
    + split; [reflexivity|].
      rewrite (frame_of_built _ _ Hb Hu) in Hf. now injection Hf as <-.
    + destruct (frame_of_duplicate _ _ Hb Hu) as (e & He & _). congruence.
Qed.

Lemma build_frame_data (first second : Row) (rest : Table)
    (df0 : DataFrame num) :
  build_frame (first :: second :: rest) = inr df0 ->
  df_data df0
  = map (column_at (second :: rest)) (seq 0 (row_width (second :: rest))).
Proof.
  unfold build_frame, pd_DataFrame. simpl tl.
  destruct (header_argument (first :: second :: rest)) as [hdr|].
  - destruct (length hdr =? row_width (second :: rest)); [|discriminate].
    now intros [= <-].
  - now intros [= <-].
Qed.

Lemma parse_all_numbers (cells : list Cell) :
  parse_all parse_num cells
  = if forallb is_number cells then Some (numbers cells) else None.
Proof.
  induction cells as [|c rest IH]; simpl; [reflexivity|].
  unfold is_number at 1. rewrite IH.
  destruct (parse_num c); simpl; [|reflexivity].
  destruct (forallb is_number rest); reflexivity.
Qed.

Lemma to_numeric_series_typed (cells : list Cell) :
  to_numeric_series parse_num (ObjectCol cells) = typed_column cells.
Proof.
  unfold typed_column. simpl. rewrite parse_all_numbers.
  destruct (forallb is_number cells); reflexivity.
Qed.

(** X2.  Coercion is all or nothing, column by column.  When the frame of
    a table with at least one data row is made, its column at each
    position holds the numbers of the cells at that position when every
    one of them is a number, and the cells as extracted when one is not
    (a cell missing in a short row counts as [None]). *)
Theorem X2_columns_all_or_nothing :
  forall (first second : Row) (rest : Table) (df : DataFrame num),
    frame_of (first :: second :: rest) = inr df ->
    df_index df = length (second :: rest)
    /\ df_data df
       = map (fun j =>
                typed_column (map (fun r => nth j r None) (second :: rest)))
           (seq 0 (row_width (second :: rest))).
Proof.
  intros first second rest df Hf.
  split; [now apply frame_of_cons in Hf|].
  apply frame_of_inv in Hf. destruct Hf as (df0 & Hb & _ & ->). simpl.
  rewrite (build_frame_data _ _ _ _ Hb), map_map.
  apply map_ext. intros j. unfold column_at.
  apply to_numeric_series_typed.
Qed.

Lemma parse_all_length (cells : list Cell) (values : list num) :
  parse_all parse_num cells = Some values -> length values = length cells.
Proof.
  revert values. induction cells as [|c rest IH]; intros values; simpl.
  - now intros [= <-].
  - destruct (parse_num c); [|discriminate].
    destruct (parse_all parse_num rest) as [xs|]; [|discriminate].
    intros [= <-]. simpl. now rewrite (IH xs eq_refl).
Qed.

Lemma to_numeric_series_size (c : column num) :
  column_size (to_numeric_series parse_num c) = column_size c.
Proof.
  destruct c as [cells|values]; simpl; [|reflexivity].
  destruct (parse_all parse_num cells) as [values|] eqn:E; simpl;
    [now apply parse_all_length|reflexivity].
Qed.

Lemma build_frame_sizes (all_tables : Table) (df0 : DataFrame num) :
  build_frame all_tables = inr df0 ->
  Forall (fun c => column_size c = df_index df0) (df_data df0).
Proof.
  unfold build_frame, pd_DataFrame.
  destruct (header_argument all_tables) as [hdr|];
    destruct (tl all_tables) as [|r rs].
  - intros [= <-]. simpl. apply Forall_forall. intros c Hc.
    apply in_map_iff in Hc. now destruct Hc as (x & <- & _).
  - destruct (length hdr =? row_width (r :: rs)); [|discriminate].
    intros [= <-]. cbn [df_data df_index]. apply Forall_forall. intros c Hc.
    apply in_map_iff in Hc. destruct Hc as (j & <- & _).
    unfold column_at. cbn [column_size]. now rewrite length_map.
  - intros [= <-]. simpl. constructor.
  - intros [= <-]. cbn [df_data df_index]. apply Forall_forall. intros c Hc.
    apply in_map_iff in Hc. destruct Hc as (j & <- & _).
    unfold column_at. cbn [column_size]. now rewrite length_map.
Qed.

(** X17.  The frame a call writes is rectangular, whatever the rows of the
    pages look like: it has one column per label, and every column, be it
    numeric or not, has exactly one entry per data row (rows shorter than
    the widest one are filled up). *)
Theorem X17_written_frame_is_rectangular :
  forall (all_tables : Table) (df : DataFrame num),
    frame_of all_tables = inr df ->
    length (df_data df) = length (df_columns df)
    /\ df_index df = length (tl all_tables)
    /\ Forall (fun c => column_size c = length (tl all_tables)) (df_data df).
Proof.
  intros all_tables df Hf.
  pose proof (frame_of_shape _ _ Hf) as [Hi _].
  apply frame_of_inv in Hf. destruct Hf as (df0 & Hb & _ & ->).
  pose proof (build_frame_shape _ _ Hb) as (Hi0 & _ & Hlen).
  pose proof (build_frame_sizes _ _ Hb) as Hsizes.
  cbn [df_data df_columns df_index] in *.
  split; [now rewrite length_map|]. split; [exact Hi|].
  apply Forall_forall. intros c Hc.
  apply in_map_iff in Hc. destruct Hc as (c0 & <- & Hc0).
  rewrite to_numeric_series_size, <- Hi0.
  rewrite Forall_forall in Hsizes. now apply Hsizes.
Qed.

(* ===================================================================== *)
(** ** More on the outcome of a call (lines 36-93) *)

Lemma convert_frame_error (pdf_path excel_path : string) (w : World)
    (pages : list Page) (e : exn) :
  os_path_exists pdf_path (w_fs w) = true ->
  pdfplumber_open pdf_path (w_fs w) = inr pages ->
  no_valid_table (stitched (map fragment_of pages)) = false ->
  frame_of (stitched (map fragment_of pages)) = inl e ->
  convert_pdf_to_excel pdf_path excel_path w
  = (inr false, log_more (read_world pdf_path pages w) [failure_record e]).
Proof.
  intros Hex Hopen Hv Hf.
  rewrite convert_run, convert_body_run, Hex, Hopen. cbv zeta.
  now rewrite Hv, Hf.
Qed.

(** X3.  A header in which a cell occurs twice makes the call fail: with a
    first row of more than one cell, as wide as the data rows, the
    coercion loop raises the [TypeError] of [to_numeric] on a sub-frame;
    the call logs it as an error and returns [False] without creating a
    directory or a file. *)
Theorem X3_repeated_header_cell_fails :
  forall (pdf_path excel_path : string) (w : World) (pages : list Page)
         (header second : Row) (rest : Table),
    os_path_exists pdf_path (w_fs w) = true ->
    pdfplumber_open pdf_path (w_fs w) = inr pages ->
    stitched (map fragment_of pages) = header :: second :: rest ->
    1 < length header ->
    length header = row_width (second :: rest) ->
    unique_labels (map Named header) = false ->
    convert_pdf_to_excel pdf_path excel_path w
    = (inr false,
       log_more (read_world pdf_path pages w)
         [(ERROR,
           "Conversion failed: arg must be a list, tuple, 1-d array, or Series"%string)])
    /\ w_fs (snd (convert_pdf_to_excel pdf_path excel_path w)) = w_fs w.
Proof.
  intros pdf_path excel_path w pages header second rest
    Hex Hopen Hst Hlong Hwide Hdup.
  assert (Hh : header_argument (header :: second :: rest) = Some header).
  { unfold header_argument. simpl.
    apply Nat.ltb_lt in Hlong. now rewrite Hlong. }
  assert (Hf : frame_of (header :: second :: rest)
               = inl (Exn TypeError
                        "arg must be a list, tuple, 1-d array, or Series")).
  { unfold frame_of. rewrite (build_frame_header _ _ Hh). simpl tl.
    apply Nat.eqb_eq in Hwide. rewrite Hwide. simpl.
    apply forallb_false_exists in Hdup. destruct Hdup as (col & Hin & Hc).
    apply Nat.eqb_neq in Hc.
    apply numeric_columns_sub_frame; simpl.
    - apply Nat.eqb_eq in Hwide.
      now rewrite !length_map, length_seq.
    - auto.
    - exists col. now split. }
  assert (Hrun : convert_pdf_to_excel pdf_path excel_path w
                 = (inr false,
                    log_more (read_world pdf_path pages w)
                      [failure_record
                         (Exn TypeError
                            "arg must be a list, tuple, 1-d array, or Series")])).
  { apply convert_frame_error; try assumption; rewrite Hst; [reflexivity|].
    exact Hf. }
  split; [exact Hrun|]. now rewrite Hrun.
Qed.

(** X4.  A header of more than one cell whose width differs from that of
    the widest data row makes the call fail: the [DataFrame] constructor
    raises [ValueError], the call logs it as an error, with both widths,
    and returns [False] without creating a directory or a file. *)
Theorem X4_header_width_mismatch_fails :
  forall (pdf_path excel_path : string) (w : World) (pages : list Page)
         (header second : Row) (rest : Table),
    os_path_exists pdf_path (w_fs w) = true ->
    pdfplumber_open pdf_path (w_fs w) = inr pages ->
    stitched (map fragment_of pages) = header :: second :: rest ->
    1 < length header ->
    length header <> row_width (second :: rest) ->
    convert_pdf_to_excel pdf_path excel_path w
    = (inr false,
       log_more (read_world pdf_path pages w)
         [(ERROR,
           ("Conversion failed: " ++ decimal (length header)
            ++ " columns passed, passed data had "
            ++ decimal (row_width (second :: rest)) ++ " columns")%string)])
    /\ w_fs (snd (convert_pdf_to_excel pdf_path excel_path w)) = w_fs w.
Proof.
  intros pdf_path excel_path w pages header second rest
    Hex Hopen Hst Hlong Hwide.
  assert (Hh : header_argument (header :: second :: rest) = Some header).
  { unfold header_argument. simpl.
    apply Nat.ltb_lt in Hlong. now rewrite Hlong. }
  assert (Hrun : convert_pdf_to_excel pdf_path excel_path w
                 = (inr false,
                    log_more (read_world pdf_path pages w)
                      [failure_record
                         (Exn ValueError
                            (decimal (length header)
                             ++ " columns passed, passed data had "
                             ++ decimal (row_width (second :: rest))
                             ++ " columns")%string)])).
  { apply convert_frame_error; try assumption; rewrite Hst; [reflexivity|].
    unfold frame_of. rewrite (build_frame_header _ _ Hh). simpl tl.
    apply Nat.eqb_neq in Hwide. now rewrite Hwide. }
  split; [exact Hrun|]. now rewrite Hrun.
Qed.


Ltac log_case side :=
  split;
  [ simpl; rewrite <- ?app_assoc; reflexivity
  | split;
    [ let H := fresh in intros H; try discriminate H; reflexivity
    | let H := fresh in
      intros H; try discriminate H; side; reflexivity ] ].

(** X6.  Every call appends to the log and never rewrites it.  After the
    records that were there come the warnings of the pages whose
    extraction raised, one for each such page of the document, in page
    order, and no other record (none at all when the path does not exist
    or the document does not open); then exactly one closing record.  The
    closing record is the INFO record of success when the call returns
    [True]; it is a warning or an error when the call returns [False]. *)
Theorem X6_log_of_a_call :
  forall (pdf_path excel_path : string) (w : World),
    exists closing : LogRecord,
      w_log (snd (convert_pdf_to_excel pdf_path excel_path w))
      = w_log w
        ++ (if os_path_exists pdf_path (w_fs w) then
              match pdfplumber_open pdf_path (w_fs w) with
              | inr pages => flat_map extraction_warnings pages
              | inl _ => []
              end
            else [])
        ++ [closing]
      /\ (fst (convert_pdf_to_excel pdf_path excel_path w) = inr true
          -> closing = success_record excel_path)
      /\ (fst (convert_pdf_to_excel pdf_path excel_path w) = inr false
          -> fst closing = WARNING \/ fst closing = ERROR).
Proof.
  intros pdf_path excel_path w.
  rewrite convert_run, convert_body_run.
  destruct (os_path_exists pdf_path (w_fs w)).
  2:{ exists (not_found_record pdf_path). log_case ltac:(right). }
  destruct (pdfplumber_open pdf_path (w_fs w)) as [e|pages].
  { exists (failure_record e). log_case ltac:(right). }
  cbv zeta.
  destruct (no_valid_table (stitched (map fragment_of pages))).
  { exists no_table_record. log_case ltac:(left). }
  destruct (frame_of (stitched (map fragment_of pages))) as [e|df].
  { exists (failure_record e). log_case ltac:(right). }
  rewrite save_frame_run. simpl.
  destruct (os_makedirs (dirname excel_path) (w_fs w)) as [e|fs1].
  { exists (failure_record e). log_case ltac:(right). }
  destruct (df_to_excel df excel_path fs1) as [e|fs2].
  { exists (failure_record e). log_case ltac:(right). }
  exists (success_record excel_path).
  log_case ltac:(left).
Qed.

Lemma progress_of_pages (total_pages : nat) (pages : list Page) :
  forall start : nat,
    progress_events total_pages (combine (seq start (length pages)) pages)
    = map (fun k => Progress k total_pages) (seq start (length pages)).
Proof.
  unfold progress_events.
  induction pages as [|page rest IH]; intros start; simpl; [reflexivity|].
  now rewrite IH.
Qed.

(** X8.  Reading a document of N pages prints the line of the document,
    then the progress of the pages 1, 2, ..., N in this order, each
    against N, then a newline; a page that raises is reported like the
    others. *)
Theorem X8_progress_of_the_pages :
  forall (pdf_path : string) (w : World) (pages : list Page),
    pdfplumber_open pdf_path (w_fs w) = inr pages ->
    w_console (snd (read_tables pdf_path w))
    = w_console w
      ++ Processing (basename pdf_path) (length pages)
         :: map (fun k => Progress k (length pages)) (seq 1 (length pages))
      ++ [Newline].
Proof.
  intros pdf_path w pages Hopen.
  rewrite read_tables_run, Hopen. simpl.
  unfold enumerate_from_1. now rewrite progress_of_pages.
Qed.

Lemma length_stitch_later (later : list Table) :
  Forall (fun t : Table => t <> []) later ->
  length (concat (map (@tl Row) later)) + length later
  = list_sum (map (@length Row) later).
Proof.
  induction 1 as [|t rest Ht _ IH]; simpl; [reflexivity|].
  rewrite length_app. destruct t as [|r rs]; [congruence|]. simpl. lia.
Qed.

Lemma present_nonempty (fragments : list (option Table)) :
  Forall (fun t : Table => t <> []) (present fragments).
Proof.
  induction fragments as [|f rest IH]; simpl; [constructor|].
  destruct f as [[|r rs]|]; simpl; try exact IH.
  constructor; [discriminate|exact IH].
Qed.

(** X9.  The accumulated table loses exactly one row per fragment after
    the first: its length is the sum of the lengths of the fragments that
    are present, less their number, plus one; and its first row is the
    first row of the first fragment that is present, whatever the later
    fragments start with. *)
Theorem X9_rows_of_the_accumulated_table :
  forall fragments : list (option Table),
    length (stitched fragments) + length (present fragments)
    = list_sum (map (@length Row) (present fragments))
      + (if is_nil (present fragments) then 0 else 1)
    /\ hd [] (stitched fragments)
       = match present fragments with
         | [] => []
         | first :: _ => hd [] first
         end.
Proof.
  intros fragments. unfold stitched.
  pose proof (present_nonempty fragments) as Hne.
  destruct (present fragments) as [|first later]; [split; reflexivity|].
  inversion Hne as [|? ? Hfirst Hlater]; subst.
  split.
  - simpl. rewrite length_app.
    pose proof (length_stitch_later later Hlater). lia.
  - destruct first as [|r rs]; [congruence|]. reflexivity.
Qed.

(* ===================================================================== *)
(** ** The header row (lines 73-76) and the frame the call makes *)

Lemma frame_ok_builds (all_tables : Table) :
  frame_ok all_tables = true ->
  exists df : DataFrame num, frame_of all_tables = inr df.
Proof.
  unfold frame_ok.
  destruct (header_argument all_tables) as [hdr|] eqn:Hh.
  - intros Hok. apply andb_true_iff in Hok. destruct Hok as [Hw Hu].
    pose proof (build_frame_header _ _ Hh) as Hb.
    destruct (tl all_tables) as [|r rs] eqn:Ht.
    + eexists. apply (frame_of_built _ _ Hb). exact Hu.
    + simpl in Hw. rewrite Hw in Hb.
      eexists. apply (frame_of_built _ _ Hb). exact Hu.
  - intros _. eexists. now apply frame_of_ordinals.
Qed.

Lemma frame_of_frame_ok (all_tables : Table) (df : DataFrame num) :
  frame_of all_tables = inr df -> frame_ok all_tables = true.
Proof.
  intros Hf. unfold frame_ok.
  destruct (header_argument all_tables) as [hdr|] eqn:Hh; [|reflexivity].
  apply frame_of_inv in Hf. destruct Hf as (df0 & Hb & Hu & _).
  rewrite (build_frame_header _ _ Hh) in Hb.
  destruct (tl all_tables) as [|r rs].
  - injection Hb as <-. simpl in Hu. now rewrite Hu.
  - destruct (length hdr =? row_width (r :: rs)) eqn:Hw; [|discriminate].
    injection Hb as <-. simpl in Hu. now rewrite Hu.
Qed.

Lemma frame_ok_cons (first second : Row) (rest : Table) :
  frame_ok (first :: second :: rest)
  = negb (1 <? length first)
    || ((length first =? row_width (second :: rest))
        && unique_labels (map Named first)).
Proof.
  unfold frame_ok, header_argument. cbn [hd tl].
  destruct (1 <? length first); reflexivity.
Qed.

(** The frame of a table with a data row, when there is one: its labels,
    its number of rows and its columns. *)
Lemma frame_of_exact (first second : Row) (rest : Table)
    (df : DataFrame num) :
  frame_of (first :: second :: rest) = inr df ->
  df = mkDataFrame
         (if 1 <? length first then map Named first
          else map Ordinal (seq 0 (row_width (second :: rest))))
         (length (second :: rest))
         (map (fun j =>
                 typed_column (map (fun r => nth j r None) (second :: rest)))
            (seq 0 (row_width (second :: rest)))).
Proof.
  intros Hf.
  destruct (frame_of_cons _ _ _ Hf) as [Hi Hc].
  apply frame_of_inv in Hf. destruct Hf as (df0 & Hb & _ & Hdf).
  assert (Hd : df_data df
               = map (fun j =>
                        typed_column
                          (map (fun r => nth j r None) (second :: rest)))
                   (seq 0 (row_width (second :: rest)))).
  { rewrite Hdf. cbn [df_data].
    rewrite (build_frame_data _ _ _ _ Hb), map_map.
    apply map_ext. intros j. unfold column_at.
    apply to_numeric_series_typed. }
  clear Hdf Hb. destruct df as [c i d]. cbn [df_columns df_index df_data] in *.
  now rewrite Hi, Hc, Hd.
Qed.

Lemma frame_of_fits (first : Row) (rows : Table) :
  rows <> [] ->
  negb (1 <? length first)
  || ((length first =? row_width rows) && unique_labels (map Named first))
  = true ->
  frame_of (first :: rows)
  = inr (mkDataFrame
           (if 1 <? length first then map Named first
            else map Ordinal (seq 0 (row_width rows)))
           (length rows)
           (map (fun j => typed_column (map (fun r => nth j r None) rows))
              (seq 0 (row_width rows)))).
Proof.
  intros Hne Hfit. destruct rows as [|second rest]; [congruence|].
  rewrite <- frame_ok_cons in Hfit.
  destruct (frame_ok_builds _ Hfit) as [df Hf]. rewrite Hf. f_equal.
  now apply frame_of_exact.
Qed.

Lemma frame_of_unfit (first : Row) (rows : Table) :
  rows <> [] ->
  negb (1 <? length first)
  || ((length first =? row_width rows) && unique_labels (map Named first))
  = false ->
  exists e : exn, frame_of (first :: rows) = inl e.
Proof.
  intros Hne Hunfit. destruct rows as [|second rest]; [congruence|].
  rewrite <- frame_ok_cons in Hunfit.
  destruct (frame_of (first :: second :: rest)) as [e|df] eqn:Hf;
    [now exists e|].
  apply frame_of_frame_ok in Hf. congruence.
Qed.

Lemma fits_short (first : Row) (rows : Table) :
  length first <= 1 ->
  negb (1 <? length first)
  || ((length first =? row_width rows) && unique_labels (map Named first))
  = true.
Proof.
  intros Hshort.
  replace (1 <? length first) with false; [reflexivity|].
  symmetry. apply Nat.ltb_ge. exact Hshort.
Qed.

Lemma fits_long (first : Row) (rows : Table) :
  length first = row_width rows ->
  unique_labels (map Named first) = true ->
  negb (1 <? length first)
  || ((length first =? row_width rows) && unique_labels (map Named first))
  = true.
Proof.
  intros Hw Hu. apply Nat.eqb_eq in Hw. rewrite Hw, Hu.
  apply orb_true_r.
Qed.

Lemma unfit_long (first : Row) (rows : Table) :
  1 < length first ->
  length first <> row_width rows \/ unique_labels (map Named first) = false ->
  negb (1 <? length first)
  || ((length first =? row_width rows) && unique_labels (map Named first))
  = false.
Proof.
  intros Hlong Hbad. apply Nat.ltb_lt in Hlong. rewrite Hlong. simpl.
  destruct Hbad as [Hw|Hu].
  - apply Nat.eqb_neq in Hw. now rewrite Hw.
  - rewrite Hu. apply andb_false_r.
Qed.


(* ===================================================================== *)
(** ** The same table on every page, and the frame *)

Lemma row_width_app (a b : Table) :
  row_width (a ++ b) = Nat.max (row_width a) (row_width b).
Proof.
  unfold row_width. now rewrite map_app, list_max_app.
Qed.

Lemma row_width_repeat (data : Table) (n : nat) :
  1 <= n -> row_width (concat (repeat data n)) = row_width data.
Proof.
  intros Hn. destruct n as [|n]; [lia|]. clear Hn.
  induction n as [|n IH].
  - simpl. now rewrite app_nil_r.
  - change (concat (repeat data (S (S n))))
      with (data ++ concat (repeat data (S n))).
    rewrite row_width_app, IH. apply Nat.max_id.
Qed.

(** C2.  Let each of the N pages (N >= 1) of a document give the same
    table, a header row and M data rows (M >= 1).  The accumulated table
    is the header row followed by the N x M data rows.  When the header
    row has at most one cell, or is as wide as the widest data row and
    holds no cell twice, the call makes a frame with one row of labels
    (the header row when it has more than one cell, the ordinals
    otherwise) over exactly N x M rows; it writes this frame and returns
    [True] when the directory and the file can be written, and whenever it
    returns [True] this is the frame it handed to the writer.  When the
    header row has more than one cell and is not as wide as the widest
    data row, or holds a cell twice, no frame is made: the call returns
    [False] and makes no directory and no file. *)
Theorem C2_identical_pages :
  forall (pdf_path excel_path : string) (w : World)
         (header : Row) (data : Table) (N : nat),
    1 <= N ->
    1 <= length data ->
    pdfplumber_open pdf_path (w_fs w)
    = inr (repeat (mkPage (Returns (Some (header :: data)))) N) ->
    let rows := concat (repeat data N) in
    let df :=
      mkDataFrame
        (if 1 <? length header then map Named header
         else map Ordinal (seq 0 (row_width data)))
        (N * length data)
        (map (fun j => typed_column (map (fun r => nth j r None) rows))
           (seq 0 (row_width data))) in
    fst (read_tables pdf_path w) = inr (header :: rows)
    /\ length rows = N * length data
    /\ (length header <= 1
        \/ (length header = row_width data
            /\ unique_labels (map Named header) = true) ->
        fst (tabular_content pdf_path w) = inr (Some df)
        /\ (forall fs1 fs2 : FS,
              os_path_exists pdf_path (w_fs w) = true ->
              os_makedirs (dirname excel_path) (w_fs w) = inr fs1 ->
              df_to_excel df excel_path fs1 = inr fs2 ->
              fst (convert_pdf_to_excel pdf_path excel_path w) = inr true
              /\ w_fs (snd (convert_pdf_to_excel pdf_path excel_path w))
                 = fs2)
        /\ (forall w' : World,
              convert_pdf_to_excel pdf_path excel_path w = (inr true, w') ->
              exists fs1 : FS,
                os_makedirs (dirname excel_path) (w_fs w) = inr fs1
                /\ df_to_excel df excel_path fs1 = inr (w_fs w')))
    /\ (1 < length header ->
        length header <> row_width data
        \/ unique_labels (map Named header) = false ->
        fst (convert_pdf_to_excel pdf_path excel_path w) = inr false
        /\ w_fs (snd (convert_pdf_to_excel pdf_path excel_path w)) = w_fs w
        /\ exists e : exn, fst (tabular_content pdf_path w) = inl e).
Proof.
  intros pdf_path excel_path w header data N HN HM Hopen. cbv zeta.
  pose proof (stitched_repeat header data N HN) as Hst.
  pose proof (length_concat_repeat data N) as Hlen.
  pose proof (row_width_repeat data N HN) as Hw.
  assert (Hne : concat (repeat data N) <> []).
  { intros Hnil. pose proof (f_equal (@length Row) Hnil) as Hzero.
    simpl in Hzero. unfold Table in *. nia. }
  assert (Hvalid : no_valid_table (header :: concat (repeat data N)) = false).
  { apply not_true_is_false. intros Hv.
    apply no_valid_table_length in Hv.
    assert (Hall : length (header :: concat (repeat data N))
                   = S (N * length data)).
    { simpl. f_equal. exact Hlen. }
    rewrite Hall in Hv. nia. }
  split; [now rewrite read_tables_run, Hopen, Hst|].
  split; [exact Hlen|]. split.
  - intros Hfit.
    assert (Hf : frame_of (header :: concat (repeat data N))
                 = inr (mkDataFrame
                          (if 1 <? length header then map Named header
                           else map Ordinal (seq 0 (row_width data)))
                          (N * length data)
                          (map (fun j =>
                                  typed_column
                                    (map (fun r => nth j r None)
                                       (concat (repeat data N))))
                             (seq 0 (row_width data))))).
    { rewrite <- Hw, <- Hlen. apply frame_of_fits; [exact Hne|].
      rewrite Hw.
      destruct Hfit as [Hshort|[Hwide Hu]];
        [now apply fits_short|now apply fits_long]. }
    split; [|split].
    + rewrite tabular_content_run, Hopen. cbv zeta.
      now rewrite Hst, Hvalid, Hf.
    + intros fs1 fs2 Hex Hm He.
      rewrite <- Hst in Hvalid, Hf.
      rewrite (convert_true_intro pdf_path excel_path w _ _ fs1 fs2
                 Hex Hopen Hvalid Hf Hm He).
      split; reflexivity.
    + intros w' Hrun. apply convert_true_inv in Hrun.
      destruct Hrun as (pages & df & fs1 & _ & Hopen' & _ & Hf' & Hm & He & _).
      rewrite Hopen in Hopen'. injection Hopen' as <-.
      rewrite Hst, Hf in Hf'. injection Hf' as <-.
      exists fs1. split; [exact Hm|exact He].
  - intros Hlong Hbad.
    destruct (frame_of_unfit header (concat (repeat data N)) Hne)
      as [e He].
    { rewrite Hw. now apply unfit_long. }
    assert (Htab : exists e' : exn, fst (tabular_content pdf_path w) = inl e').
    { exists e. rewrite tabular_content_run, Hopen. cbv zeta.
      now rewrite Hst, Hvalid, He. }
    destruct (os_path_exists pdf_path (w_fs w)) eqn:Hex.
    + rewrite <- Hst in Hvalid, He.
      rewrite (convert_frame_error pdf_path excel_path w _ e
                 Hex Hopen Hvalid He).
      repeat split; assumption.
    + rewrite convert_run, convert_body_run, Hex.
      repeat split; assumption.
Qed.

End Coverage.

(* ===================================================================== *)
(** ** The names of the files (lines 137-150) *)

Lemma contains_sep_app (a b : string) :
  contains_sep (a ++ b) = contains_sep a || contains_sep b.
Proof.
  induction a as [|c r IH]; simpl; [reflexivity|].
  now rewrite IH, orb_assoc.
Qed.

Lemma ends_with_sep_contains (p : string) :
  ends_with_sep p = true -> contains_sep p = true.
Proof.
  induction p as [|c r IH]; simpl; [discriminate|].
  destruct r as [|c' r'].
  - intros ->. reflexivity.
  - intros H. rewrite (IH H). apply orb_true_r.
Qed.

Lemma join_contains_sep (a b : string) :
  a <> EmptyString -> contains_sep (os_path_join a b) = true.
Proof.
  intros Ha. unfold os_path_join.
  destruct (starts_with_sep b) eqn:Hb.
  - destruct b as [|c r]; [discriminate|]. simpl in *. now rewrite Hb.
  - replace (is_empty a) with false
      by (destruct a; [congruence|reflexivity]).
    rewrite orb_false_l.
    destruct (ends_with_sep a) eqn:He; rewrite contains_sep_app.
    + now rewrite (ends_with_sep_contains _ He).
    + simpl. apply orb_true_r.
Qed.

Lemma head_part_of_sep (p : string) :
  contains_sep p = true -> head_part p <> EmptyString.
Proof.
  destruct p as [|c r]; simpl; [discriminate|].
  destruct (contains_sep r); [discriminate|].
  rewrite orb_false_r. intros ->. discriminate.
Qed.

Lemma rstrip_sep_empty (p : string) :
  rstrip_sep p = EmptyString -> all_sep p = true.
Proof.
  induction p as [|c r IH]; simpl; [reflexivity|].
  destruct (rstrip_sep r); [|discriminate].
  destruct (is_sep c); [|discriminate].
  intros _. now rewrite IH.
Qed.

Lemma dirname_of_sep (p : string) :
  contains_sep p = true -> dirname p <> EmptyString.
Proof.
  intros H. apply head_part_of_sep in H. unfold dirname.
  destruct (head_part p) as [|c r] eqn:Hh; [congruence|].
  cbn [is_empty negb andb].
  destruct (all_sep (String c r)) eqn:Ha; cbn [negb]; [discriminate|].
  intros Hs. apply rstrip_sep_empty in Hs. congruence.
Qed.

Lemma str_endswith_refl (s : string) : str_endswith s s = true.
Proof.
  destruct s; cbn [str_endswith]; rewrite String.eqb_refl; reflexivity.
Qed.

Lemma str_endswith_app (a b suffix : string) :
  str_endswith b suffix = true -> str_endswith (a ++ b) suffix = true.
Proof.
  intros H. induction a as [|c r IH]; cbn [append str_endswith]; [exact H|].
  rewrite IH. apply orb_true_r.
Qed.

Lemma str_endswith_iff (s suffix : string) :
  str_endswith s suffix = true <-> exists pre, s = (pre ++ suffix)%string.
Proof.
  split.
  - induction s as [|c r IH]; cbn [str_endswith].
    + rewrite orb_false_r. intros H. apply String.eqb_eq in H.
      exists EmptyString. exact H.
    + intros H. apply orb_true_iff in H. destruct H as [H|H].
      * apply String.eqb_eq in H. exists EmptyString. exact H.
      * destruct (IH H) as [pre ->]. now exists (String c pre).
  - intros [pre ->]. apply str_endswith_app, str_endswith_refl.
Qed.

Lemma join_endswith (a b suffix : string) :
  str_endswith b suffix = true ->
  str_endswith (os_path_join a b) suffix = true.
Proof.
  intros H. unfold os_path_join.
  destruct (starts_with_sep b); [exact H|].
  destruct (is_empty a || ends_with_sep a).
  - now apply str_endswith_app.
  - apply str_endswith_app. cbn [str_endswith]. rewrite H. apply orb_true_r.
Qed.

Lemma str_lower_app (a b : string) :
  str_lower (a ++ b) = (str_lower a ++ str_lower b)%string.
Proof. induction a as [|c r IH]; simpl; [reflexivity|now rewrite IH]. Qed.

Lemma str_lower_app_inv (s : string) :
  forall a b : string,
    str_lower s = (a ++ b)%string ->
    exists x y, s = (x ++ y)%string /\ str_lower x = a /\ str_lower y = b.
Proof.
  induction s as [|c r IH]; intros a b H.
  - destruct a; [|discriminate]. exists EmptyString, EmptyString.
    simpl in *. auto.
  - destruct a as [|c' a'].
    + exists EmptyString, (String c r). simpl in *. auto.
    + simpl in H. injection H as Hc Hr.
      destruct (IH _ _ Hr) as (x & y & -> & Hx & Hy).
      exists (String c x), y. simpl. now rewrite Hc, Hx.
Qed.

(** X10.  The files a run converts are those whose name ends in [.pdf] in
    any mix of upper and lower case: a name passes the test of line 144
    exactly when it is a stem (possibly empty) followed by four characters
    that are [.pdf] once lowered. *)
Theorem X10_pdf_names :
  forall file_name : string,
    is_pdf_name file_name = true
    <-> exists stem ext : string,
          file_name = (stem ++ ext)%string /\ str_lower ext = ".pdf"%string.
Proof.
  intros file_name. unfold is_pdf_name. rewrite str_endswith_iff. split.
  - intros [pre H]. apply str_lower_app_inv in H.
    destruct H as (stem & ext & -> & _ & Hext). now exists stem, ext.
  - intros (stem & ext & -> & Hext). exists (str_lower stem).
    now rewrite str_lower_app, Hext.
Qed.

Lemma tail_part_bare (s : string) :
  contains_sep s = false -> tail_part s = s.
Proof.
  destruct s as [|c r]; simpl; [reflexivity|].
  intros H. apply orb_false_iff in H. destruct H as [-> ->]. reflexivity.
Qed.

Lemma tail_part_app (q s : string) :
  contains_sep s = false -> tail_part (q ++ s) = (tail_part q ++ s)%string.
Proof.
  intros Hs. induction q as [|c r IH]; simpl.
  - now apply tail_part_bare.
  - rewrite contains_sep_app, Hs, orb_false_r, IH.
    destruct (contains_sep r); [reflexivity|].
    destruct (is_sep c); reflexivity.
Qed.

Lemma head_part_app (q s : string) :
  contains_sep s = false -> head_part (q ++ s) = head_part q.
Proof.
  intros Hs. induction q as [|c r IH]; simpl.
  - now apply head_part_bare.
  - rewrite contains_sep_app, Hs, orb_false_r, IH. reflexivity.
Qed.

Lemma head_tail_part (p : string) : (head_part p ++ tail_part p)%string = p.
Proof.
  induction p as [|c r IH]; simpl; [reflexivity|].
  destruct (contains_sep r); simpl; [now rewrite IH|].
  destruct (is_sep c); reflexivity.
Qed.

Lemma contains_dot_app (a b : string) :
  contains_dot (a ++ b) = contains_dot a || contains_dot b.
Proof.
  induction a as [|c r IH]; simpl; [reflexivity|].
  now rewrite IH, orb_assoc.
Qed.

Lemma before_last_dot_app (t e : string) :
  contains_dot e = false ->
  before_last_dot (t ++ String "."%char e) = t.
Proof.
  intros He. induction t as [|c r IH]; simpl.
  - now rewrite He.
  - rewrite contains_dot_app. simpl. rewrite orb_true_r. now rewrite IH.
Qed.

Lemma from_last_dot_app (t e : string) :
  contains_dot e = false ->
  from_last_dot (t ++ String "."%char e) = String "."%char e.
Proof.
  intros He. induction t as [|c r IH]; simpl.
  - now rewrite He.
  - rewrite contains_dot_app. simpl. rewrite orb_true_r. exact IH.
Qed.

Lemma splitext_extension (q e : string) :
  contains_dot e = false ->
  contains_sep e = false ->
  os_path_splitext (q ++ String "."%char e)
  = if all_dots (tail_part q) then ((q ++ String "."%char e)%string, EmptyString)
    else (q, String "."%char e).
Proof.
  intros Hd Hs.
  assert (Hs' : contains_sep (String "."%char e) = false) by exact Hs.
  unfold os_path_splitext.
  rewrite (tail_part_app q _ Hs'), (head_part_app q _ Hs').
  rewrite contains_dot_app. simpl contains_dot. rewrite orb_true_r.
  rewrite (before_last_dot_app _ _ Hd), (from_last_dot_app _ _ Hd).
  destruct (all_dots (tail_part q)); simpl; [reflexivity|].
  now rewrite head_tail_part.
Qed.

Lemma lower_char_keeps (c : ascii) (d : ascii) :
  d = "."%char \/ d = "/"%char -> Ascii.eqb c d = Ascii.eqb (lower_char c) d.
Proof.
  intros [-> | ->];
    destruct c as [[] [] [] [] [] [] [] []]; vm_compute; reflexivity.
Qed.

Lemma str_lower_dots_seps (s : string) :
  contains_dot (str_lower s) = contains_dot s
  /\ contains_sep (str_lower s) = contains_sep s.
Proof.
  induction s as [|c r [IHd IHs]]; simpl; [now split|].
  unfold is_dot, is_sep. rewrite IHd, IHs.
  rewrite <- (lower_char_keeps c "."%char) by now left.
  rewrite <- (lower_char_keeps c "/"%char) by now right.
  now split.
Qed.

Lemma pdf_extension (ext : string) :
  str_lower ext = ".pdf"%string ->
  exists e : string,
    ext = String "."%char e
    /\ contains_dot e = false /\ contains_sep e = false.
Proof.
  intros H.
  destruct (str_lower_dots_seps ext) as [Hd Hs]. rewrite H in Hd, Hs.
  destruct ext as [|c e]; [discriminate|].
  simpl in H. injection H as Hc He.
  assert (Hdot : c = "."%char).
  { apply Ascii.eqb_eq. rewrite (lower_char_keeps c "."%char) by now left.
    rewrite Hc. reflexivity. }
  subst c. exists e. split; [reflexivity|].
  destruct (str_lower_dots_seps e) as [Hd' Hs']. rewrite He in Hd', Hs'.
  split; [now rewrite <- Hd'|now rewrite <- Hs'].
Qed.

Lemma tail_part_after_sep (dir : string) :
  tail_part (dir ++ "/") = EmptyString.
Proof.
  induction dir as [|c r IH]; simpl; [reflexivity|].
  rewrite contains_sep_app. simpl. rewrite orb_true_r. exact IH.
Qed.

(** X18.  The output folder of a run is the output parent folder joined
    with the last component of the input folder.  When the input folder
    ends in a separator (as the root folder does) that component is empty,
    and the output folder is the parent folder itself, with a separator
    at its end. *)
Theorem X18_output_folder :
  forall (output_parent_folder dir name : string),
    output_parent_folder <> EmptyString ->
    contains_sep name = false ->
    basename (dir ++ "/" ++ name) = name
    /\ os_path_join output_parent_folder (basename (dir ++ "/" ++ name))
       = (if ends_with_sep output_parent_folder
          then output_parent_folder ++ name
          else output_parent_folder ++ "/" ++ name)%string.
Proof.
  intros output_parent_folder dir name Hparent Hname.
  assert (Hbase : basename (dir ++ "/" ++ name) = name).
  { unfold basename.
    replace (dir ++ "/" ++ name)%string with ((dir ++ "/") ++ name)%string.
    - now rewrite (tail_part_app _ _ Hname), tail_part_after_sep.
    - clear. induction dir as [|c r IH]; simpl; [reflexivity|].
      now rewrite IH. }
  split; [exact Hbase|]. rewrite Hbase. unfold os_path_join.
  replace (starts_with_sep name) with false.
  - replace (is_empty output_parent_folder) with false
      by (destruct output_parent_folder; [congruence|reflexivity]).
    reflexivity.
  - destruct name as [|c r]; [reflexivity|]. simpl in *.
    apply orb_false_iff in Hname. now destruct Hname as [-> _].
Qed.

(** X11.  The output name of a document replaces its extension: for a
    relative path that ends in [.pdf] in any case, the output path is the
    output folder joined with the path without its last four characters,
    followed by [.xlsx].  The one exception is a file whose name before
    the extension is empty or made of dots only (a file named [.pdf]):
    then [.xlsx] is appended to the whole name. *)
Theorem X11_output_name :
  forall (output_folder q ext : string),
    str_lower ext = ".pdf"%string ->
    excel_path_of output_folder (q ++ ext)
    = os_path_join output_folder
        ((if all_dots (tail_part q) then q ++ ext else q) ++ ".xlsx")%string.
Proof.
  intros output_folder q ext Hext.
  destruct (pdf_extension ext Hext) as (e & -> & Hd & Hs).
  unfold excel_path_of. rewrite (splitext_extension q e Hd Hs).
  destruct (all_dots (tail_part q)); reflexivity.
Qed.

(** X12.  Every output path a run computes lies in a directory and ends in
    [.xlsx]: with a non-empty output parent folder, the path has a
    non-empty directory name, whatever the input folder and the relative
    path are.  The call of line 86 on an empty directory name does not
    arise from [run]. *)
Theorem X12_output_path_has_a_directory :
  forall (output_parent_folder input_folder relative_path : string),
    output_parent_folder <> EmptyString ->
    let output_folder :=
      os_path_join output_parent_folder (basename input_folder) in
    dirname (excel_path_of output_folder relative_path) <> EmptyString
    /\ ~ bare_filename (excel_path_of output_folder relative_path)
    /\ str_endswith (excel_path_of output_folder relative_path) ".xlsx" = true.
Proof.
  intros output_parent_folder input_folder relative_path Hparent output_folder.
  assert (Hout : output_folder <> EmptyString).
  { intros Hempty.
    pose proof (join_contains_sep output_parent_folder
                  (basename input_folder) Hparent) as H.
    fold output_folder in H. rewrite Hempty in H. discriminate. }
  assert (Hsep : contains_sep (excel_path_of output_folder relative_path)
                 = true)
    by (unfold excel_path_of; now apply join_contains_sep).
  split; [now apply dirname_of_sep|]. split.
  - unfold bare_filename. now rewrite Hsep.
  - unfold excel_path_of. apply join_endswith.
    apply str_endswith_app, str_endswith_refl.
Qed.

(* ===================================================================== *)
(** ** Folder selection and the run (lines 95-160) *)

Section RunnerProperties.

Context {P : Platform} {D : Desktop}.

Ltac session :=
  unfold r_bind, r_ret, r_try, r_lift, in_world, say, ask_directory,
    session_after, log_more, logger; simpl.

Lemma select_folder_and_output_run (s : Session) :
  select_folder_and_output s
  = match tk_Tk with
    | inl e => (inl e, s)
    | inr _ =>
        match askdirectory input_title with
        | inl e =>
            (inr (None, None),
             session_after s [input_title]
               [(ERROR, ("Selection error: " ++ exn_str e)%string)])
        | inr input_folder =>
            if is_empty input_folder then
              (inr (None, None),
               session_after s [input_title]
                 [(INFO, "No input folder selected. Exiting."%string)])
            else
              match askdirectory output_title with
              | inl e =>
                  (inr (None, None),
                   session_after s [input_title; output_title]
                     [(ERROR, ("Selection error: " ++ exn_str e)%string)])
              | inr output_parent_folder =>
                  if is_empty output_parent_folder then
                    (inr (None, None),
                     session_after s [input_title; output_title]
                       [(INFO, "No output folder selected. Exiting."%string)])
                  else
                    (inr (Some input_folder, Some output_parent_folder),
                     mkSession (s_world s)
                       (s_dialogs s ++ [input_title; output_title])
                       (s_status s))
              end
        end
    end.
Proof.
  unfold select_folder_and_output. unfold r_bind at 1. unfold r_lift.
  destruct tk_Tk as [e|u]; [reflexivity|].
  session.
  destruct (askdirectory input_title) as [e|input_folder]; simpl;
    [reflexivity|].
  destruct (is_empty input_folder); simpl; [reflexivity|].
  destruct (askdirectory output_title) as [e|output_parent_folder]; simpl;
    rewrite <- ?app_assoc; simpl; [reflexivity|].
  destruct (is_empty output_parent_folder); simpl; [reflexivity|].
  now destruct s as [[fs lg co] dl st].
Qed.

(** X13.  [select_folder_and_output] gives both folders or none, never
    one: when it returns folders, both are non-empty and are the answers
    to the two dialogs.  An error of a dialog is caught (the result is
    then no folder); the only error that escapes is that of making the
    root window.  No directory or file is made or changed, the log file
    apart: the log is as it was when folders are returned or the root
    window cannot be made, and it gains exactly one record, the one of
    line 108, 116 or 122, when no folder is returned. *)
Theorem X13_both_folders_or_none :
  forall s : Session,
    match fst (select_folder_and_output s) with
    | inl e =>
        tk_Tk = inl e
        /\ w_log (s_world (snd (select_folder_and_output s)))
           = w_log (s_world s)
    | inr (Some input_folder, Some output_parent_folder) =>
        input_folder <> EmptyString
        /\ output_parent_folder <> EmptyString
        /\ askdirectory input_title = inr input_folder
        /\ askdirectory output_title = inr output_parent_folder
        /\ w_log (s_world (snd (select_folder_and_output s)))
           = w_log (s_world s)
    | inr (None, None) =>
        w_log (s_world (snd (select_folder_and_output s)))
        = w_log (s_world s) ++ [cancel_record]
    | inr _ => False
    end
    /\ w_fs (s_world (snd (select_folder_and_output s))) = w_fs (s_world s).
Proof.
  intros s. rewrite select_folder_and_output_run. unfold cancel_record.
  destruct tk_Tk as [e|u]; [now split|].
  destruct (askdirectory input_title) as [e|input_folder]; [now split|].
  destruct (is_empty input_folder) eqn:Hi; [now split|].
  destruct (askdirectory output_title) as [e|output_parent_folder];
    [now split|].
  destruct (is_empty output_parent_folder) eqn:Ho; [now split|].
  simpl. repeat split; intros ->; discriminate.
Qed.

Lemma run_without_folders (s s1 : Session) :
  select_folder_and_output s = (inr (None, None), s1) ->
  run s
  = (inr tt,
     mkSession
       (log_more (s_world s1)
          [(INFO, "Conversion cancelled or invalid selection."%string)])
       (s_dialogs s1) (s_status s1 ++ [NoValidFolders])).
Proof.
  intros H. unfold run. unfold r_bind at 1. rewrite H. simpl. session.
  reflexivity.
Qed.

(** X14.  When the selection gives no folder (a dialog was cancelled or
    raised), [run] ends normally without converting anything.  No
    directory or file is made or changed, the log file apart, and the log
    file gains exactly two records: the one of the selection, then the
    INFO record of line 132.  The one line printed is that no valid folder
    was selected.  When it is the first dialog that is cancelled, the
    second one is not shown. *)
Theorem X14_nothing_happens_without_folders :
  forall s : Session,
    fst (select_folder_and_output s) = inr (None, None) ->
    fst (run s) = inr tt
    /\ filesystem (s_world (snd (run s)))
       = (w_fs (s_world s),
          w_log (s_world s)
          ++ [cancel_record;
              (INFO, "Conversion cancelled or invalid selection."%string)])
    /\ w_console (s_world (snd (run s))) = w_console (s_world s)
    /\ s_status (snd (run s)) = s_status s ++ [NoValidFolders]
    /\ (askdirectory input_title = inr EmptyString ->
        s_dialogs (snd (run s)) = s_dialogs s ++ [input_title]).
Proof.
  intros s Hsel.
  destruct (select_folder_and_output s) as [r s1] eqn:E. simpl in Hsel.
  subst r. rewrite (run_without_folders s s1 E).
  unfold filesystem, cancel_record. simpl.
  rewrite select_folder_and_output_run in E.
  destruct tk_Tk as [e|u]; [discriminate|].
  destruct (askdirectory input_title) as [e|input_folder].
  { injection E as <-. simpl. rewrite <- app_assoc. repeat split. }
  destruct (is_empty input_folder) eqn:Hi.
  { injection E as <-. simpl. rewrite <- app_assoc. repeat split. }
  destruct (askdirectory output_title) as [e|output_parent_folder].
  { injection E as <-. simpl. rewrite <- app_assoc.
    repeat split; try (intros [= ->]; discriminate Hi). }
  destruct (is_empty output_parent_folder) eqn:Ho; [|discriminate].
  injection E as <-. simpl. rewrite <- app_assoc.
  repeat split; try (intros [= ->]; discriminate Hi).
Qed.













End RunnerProperties.

(* ===================================================================== *)
(** ** More runs on the small platform *)

Section CoverageRuns.

Import Demo DemoDesktop.
Local Open Scope string_scope.


Lemma C2_identical_pages_witness :
  fst (read_tables (P := platform) "in/people.pdf" start)
  = inr ([text "id"; text "name"]
         :: concat (repeat [[text "1"; text "ann"]; [text "2"; text "bob"]] 2))
  /\ fst (tabular_content (P := platform) "in/people.pdf" start)
     = inr (Some (mkDataFrame [Named (text "id"); Named (text "name")] 4
                    [NumericCol [1; 2; 1; 2];
                     ObjectCol [text "ann"; text "bob";
                                text "ann"; text "bob"]]))
  /\ sheets
       (w_fs (snd (convert_pdf_to_excel (P := platform)
                     "in/people.pdf" "out/people.xlsx" start)))
     = [("out/people.xlsx",
         mkDataFrame [Named (text "id"); Named (text "name")] 4
           [NumericCol [1; 2; 1; 2];
            ObjectCol [text "ann"; text "bob"; text "ann"; text "bob"]])].
Proof.
  assert (HN : 1 <= 2) by lia.
  assert (HM : 1 <= length [[text "1"; text "ann"]; [text "2"; text "bob"]])
    by (simpl; lia).
  destruct (C2_identical_pages (P := platform)
              "in/people.pdf" "out/people.xlsx" start
              [text "id"; text "name"]
              [[text "1"; text "ann"]; [text "2"; text "bob"]] 2
              HN HM eq_refl)
    as (Hread & _ & Hfit & _).
  destruct (Hfit (or_intror (conj eq_refl eq_refl))) as (Htab & Hcall & _).
  split; [exact Hread|]. split; [exact Htab|].
  destruct (Hcall (mkFiles (documents disk) ["out"] [])
              (mkFiles (documents disk) ["out"]
                 [("out/people.xlsx",
                   mkDataFrame [Named (text "id"); Named (text "name")] 4
                     [NumericCol [1; 2; 1; 2];
                      ObjectCol [text "ann"; text "bob";
                                 text "ann"; text "bob"]])])
              eq_refl eq_refl eq_refl)
    as [_ Hfs].
  rewrite Hfs. reflexivity.
Defined.

(** C2 as stated fails.  The document [in/twice.pdf] has one page (N = 1)
    whose table is the header row [a, a] and one data row (M = 1).  The
    call on it makes no frame, returns [False] and writes no sheet: no
    output table is produced. *)
Lemma C2_repeated_header_gives_no_table :
  pdfplumber_open (Platform := platform) "in/twice.pdf" (w_fs shelf)
  = inr (repeat
           (mkPage
              (Returns (Some ([text "a"; text "a"] :: [[text "1"; text "2"]]))))
           1)
  /\ 1 <= 1
  /\ 1 <= length [[text "1"; text "2"]]
  /\ fst (convert_pdf_to_excel (P := platform)
            "in/twice.pdf" "out/twice.xlsx" shelf) = inr false
  /\ sheets
       (w_fs (snd (convert_pdf_to_excel (P := platform)
                     "in/twice.pdf" "out/twice.xlsx" shelf))) = []
  /\ fst (tabular_content (P := platform) "in/twice.pdf" shelf)
     = inl (Exn TypeError "arg must be a list, tuple, 1-d array, or Series").
Proof.
  split; [reflexivity|]. split; [lia|]. split; [simpl; lia|].
  split; [reflexivity|]. split; reflexivity.
Qed.

Lemma X2_columns_all_or_nothing_witness :
  exists df : DataFrame nat,
    frame_of (P := platform) readings = inr df
    /\ df_data df
       = [ObjectCol [text "1"; text "x"; text "3"]; NumericCol [4; 5; 6]].
Proof.
  eexists. split; [vm_compute; reflexivity|].
  apply (proj2 (X2_columns_all_or_nothing (P := platform)
                  [text "k"; text "v"] [text "1"; text "4"]
                  [[text "x"; text "5"]; [text "3"; text "6"]] _ eq_refl)).
Defined.

Lemma X3_repeated_header_cell_fails_witness :
  fst (convert_pdf_to_excel (P := platform)
         "in/twice.pdf" "out/twice.xlsx" shelf) = inr false
  /\ w_fs (snd (convert_pdf_to_excel (P := platform)
                  "in/twice.pdf" "out/twice.xlsx" shelf)) = w_fs shelf.
Proof.
  assert (Hlong : 1 < length [text "a"; text "a"]) by (simpl; lia).
  destruct (X3_repeated_header_cell_fails (P := platform)
              "in/twice.pdf" "out/twice.xlsx" shelf [page_of twice]
              [text "a"; text "a"] [text "1"; text "2"] []
              eq_refl eq_refl eq_refl Hlong eq_refl eq_refl)
    as (Hrun & Hfs).
  split; [now rewrite Hrun|exact Hfs].
Defined.

Lemma X4_header_width_mismatch_fails_witness :
  w_log (snd (convert_pdf_to_excel (P := platform)
                "in/wide.pdf" "out/wide.xlsx" shelf))
  = [(ERROR,
      "Conversion failed: 3 columns passed, passed data had 2 columns")].
Proof.
  assert (Hlong : 1 < length [text "a"; text "b"; text "c"])
    by (simpl; lia).
  assert (Hwide : length [text "a"; text "b"; text "c"]
                  <> row_width [[text "1"; text "2"]])
    by (vm_compute; lia).
  destruct (X4_header_width_mismatch_fails (P := platform)
              "in/wide.pdf" "out/wide.xlsx" shelf [page_of wide]
              [text "a"; text "b"; text "c"] [text "1"; text "2"] []
              eq_refl eq_refl eq_refl Hlong Hwide)
    as (Hrun & _).
  rewrite Hrun. reflexivity.
Defined.

Lemma X8_progress_of_the_pages_witness :
  w_console (snd (read_tables (P := platform) "in/people.pdf" start))
  = [Processing "people.pdf" 2; Progress 1 2; Progress 2 2; Newline].
Proof.
  exact (X8_progress_of_the_pages (P := platform) "in/people.pdf" start
           [page_of people; page_of people] eq_refl).
Defined.

Lemma X11_output_name_witness :
  excel_path_of "out/in" "sub/report.PDF" = "out/in/sub/report.xlsx"
  /\ excel_path_of "out/in" "sub/.pdf" = "out/in/sub/.pdf.xlsx".
Proof.
  split.
  - exact (X11_output_name "out/in" "sub/report" ".PDF" eq_refl).
  - exact (X11_output_name "out/in" "sub/" ".pdf" eq_refl).
Defined.

Lemma X12_output_path_has_a_directory_witness :
  dirname (excel_path_of (os_path_join "out" (basename "in")) "people.pdf")
  <> "".
Proof.
  assert (Hparent : "out" <> "") by discriminate.
  exact (proj1 (X12_output_path_has_a_directory "out" "in" "people.pdf"
                  Hparent)).
Defined.

Lemma X17_written_frame_is_rectangular_witness :
  exists df : DataFrame nat,
    frame_of (P := platform) [[text "h"]; [text "1"; text "b"]; [text "2"]]
    = inr df
    /\ Forall (fun c => column_size c = 2) (df_data df).
Proof.
  eexists. split; [vm_compute; reflexivity|].
  apply (proj2 (proj2 (X17_written_frame_is_rectangular (P := platform)
                         [[text "h"]; [text "1"; text "b"]; [text "2"]]
                         _ eq_refl))).
Defined.

Lemma X18_output_folder_witness :
  os_path_join "out" (basename "home/in") = "out/in"
  /\ os_path_join "out" (basename "home/in/") = "out/".
Proof.
  assert (Hparent : "out" <> "") by discriminate.
  split.
  - exact (proj2 (X18_output_folder "out" "home" "in" Hparent eq_refl)).
  - exact (proj2 (X18_output_folder "out" "home/in" "" Hparent eq_refl)).
Defined.

Lemma X14_nothing_happens_without_folders_witness :
  s_status (snd (run (D := desktop cancels) begin)) = [NoValidFolders]
  /\ s_dialogs (snd (run (D := desktop cancels) begin))
     = ["Select Input Folder Containing PDFs"]
  /\ filesystem (s_world (snd (run (D := desktop cancels) begin)))
     = (disk,
        [(INFO, "No input folder selected. Exiting.");
         (INFO, "Conversion cancelled or invalid selection.")]).
Proof.
  destruct (X14_nothing_happens_without_folders (D := desktop cancels)
              begin eq_refl)
    as (_ & Hfiles & _ & Hstatus & Hdialogs).
  split; [exact Hstatus|]. split; [exact (Hdialogs eq_refl)|exact Hfiles].
Defined.



End CoverageRuns.
